(** * TennisBot actions: filter/entity resolution and match deduplication

    A shallow embedding of the core of [Chatbot/actions/actions.py]
    (with the [matches] schema of [Chatbot/db_create.py]) and the
    properties its specification states about it.

    Modelling conventions.
    - A Python [str] is a [string] whose characters are the code points
      0..255 (Latin-1).  Every character class, keyword and filler word
      of the source lies in that range, and on that range the tables
      below ([is_space], [lower_char], [is_digit_char], [is_word_char])
      are those of CPython's [str.isspace], [str.lower], [str.isdigit]
      and of [re]'s [\s], [\d], [\w].
    - A value that can sit in a database cell, a slot or an entity is a
      [pyval]: [None], a [bool], an [int] or a [str].
    - Code that can raise returns a [res]; the exception is named.
    - Floats are exact rationals ([Q]); rounding is not modelled. *)

From Stdlib Require Import ZArith QArith Ascii String List Lia.
From stdpp Require Import base option list strings gmap pretty.

Open Scope string_scope.

(** ** Python values and exceptions *)

Inductive pyval :=
| PNone
| PBool (b : bool)
| PInt (z : Z)
| PStr (s : string).

#[global] Instance pyval_eq_dec : EqDecision pyval.
Proof. solve_decision. Defined.

Inductive exn :=
| AttributeError
| KeyError
| IndexError
| TypeError
| ValueError
| ZeroDivisionError.

#[global] Instance exn_eq_dec : EqDecision exn.
Proof. solve_decision. Defined.

Inductive res (A : Type) :=
| Ok (a : A)
| Raise (e : exn).
Arguments Ok {A} a.
Arguments Raise {A} e.

#[global] Instance res_eq_dec {A} `{EqDecision A} : EqDecision (res A).
Proof. solve_decision. Defined.

Definition bind {A B} (m : res A) (f : A -> res B) : res B :=
  match m with
  | Ok a => f a
  | Raise e => Raise e
  end.

Definition res_map {A B} (f : A -> B) (m : res A) : res B :=
  bind m (fun a => Ok (f a)).

Notation "'do' x <- m ; k" := (bind m (fun x => k))
  (at level 10, x name, m at level 100, k at level 200,
   format "'[v' 'do'  x  <-  m ; '/' k ']'").

Definition is_ok {A} (m : res A) : Prop := exists a, m = Ok a.

(** [bool(v)] *)
Definition truthy (v : pyval) : bool :=
  match v with
  | PNone => false
  | PBool b => b
  | PInt z => negb (z =? 0)%Z
  | PStr s => negb (String.eqb s "")
  end.

(** [a or b] *)
Definition py_or (a b : pyval) : pyval := if truthy a then a else b.

(** [str(v)] *)
Definition py_str (v : pyval) : string :=
  match v with
  | PNone => "None"
  | PBool true => "True"
  | PBool false => "False"
  | PInt z => pretty z
  | PStr s => s
  end.

(** [v == s] for a string literal [s] *)
Definition eq_str (v : pyval) (s : string) : bool :=
  match v with
  | PStr s' => String.eqb s' s
  | _ => false
  end.

(** ** Characters and strings *)

Definition code (c : ascii) : N := N_of_ascii c.

Definition in_range (lo hi : N) (c : ascii) : bool :=
  ((lo <=? code c) && (code c <=? hi))%N.

(** [str.isspace] and [\s] on one character *)
Definition is_space (c : ascii) : bool :=
  in_range 9 13 c || in_range 28 32 c || (code c =? 133)%N || (code c =? 160)%N.

(** [\d] *)
Definition is_decimal_char (c : ascii) : bool := in_range 48 57 c.

(** [str.isdigit] on one character: the decimals and the superscripts
    two, three and one. *)
Definition is_digit_char (c : ascii) : bool :=
  is_decimal_char c || (code c =? 178)%N || (code c =? 179)%N || (code c =? 185)%N.

Definition is_ascii_letter (c : ascii) : bool :=
  in_range 65 90 c || in_range 97 122 c.

(** The class [A-Za-z\u00C0-\u00D6\u00D8-\u00F6\u00F8-\u00FF] *)
Definition is_latin_letter (c : ascii) : bool :=
  is_ascii_letter c || in_range 192 214 c || in_range 216 246 c || in_range 248 255 c.

(** [\w]: alphanumeric or underscore *)
Definition is_word_char (c : ascii) : bool :=
  is_latin_letter c || is_digit_char c || (code c =? 95)%N
  || (code c =? 170)%N || (code c =? 181)%N || (code c =? 186)%N
  || in_range 188 190 c.

(** [str.lower] on one character *)
Definition lower_char (c : ascii) : ascii :=
  if in_range 65 90 c || (in_range 192 222 c && negb (code c =? 215)%N)
  then ascii_of_N (code c + 32)
  else c.

Definition chars (s : string) : list ascii := list_ascii_of_string s.
Definition str (l : list ascii) : string := string_of_list_ascii l.

Definition py_lower (s : string) : string := str (map lower_char (chars s)).

Fixpoint drop_while {A} (p : A -> bool) (l : list A) : list A :=
  match l with
  | [] => []
  | x :: l' => if p x then drop_while p l' else l
  end.

(** [s.strip(cs)] for the character set [p] *)
Definition strip_by (p : ascii -> bool) (s : string) : string :=
  str (rev (drop_while p (rev (drop_while p (chars s))))).

(** [s.strip()] *)
Definition py_strip (s : string) : string := strip_by is_space s.

Definition mem_char (cs : string) (c : ascii) : bool :=
  existsb (Ascii.eqb c) (chars cs).

(** [s.isdigit()] *)
Definition py_isdigit (s : string) : bool :=
  match chars s with
  | [] => false
  | l => forallb is_digit_char l
  end.

(** [s.split()]: the maximal runs of non-whitespace characters *)
Fixpoint split_ws (cur : list ascii) (l : list ascii) : list string :=
  match l with
  | [] => match cur with [] => [] | _ => [str (rev cur)] end
  | c :: l' =>
      if is_space c
      then match cur with
           | [] => split_ws [] l'
           | _ => str (rev cur) :: split_ws [] l'
           end
      else split_ws (c :: cur) l'
  end.

Definition py_split (s : string) : list string := split_ws [] (chars s).

(** [sep.join(l)] *)
Fixpoint py_join (sep : string) (l : list string) : string :=
  match l with
  | [] => ""
  | [x] => x
  | x :: l' => x ++ sep ++ py_join sep l'
  end.

(** [needle in s] *)
Fixpoint is_prefix (p l : list ascii) : bool :=
  match p, l with
  | [], _ => true
  | a :: p', b :: l' => Ascii.eqb a b && is_prefix p' l'
  | _ :: _, [] => false
  end.

Fixpoint contains_from (p l : list ascii) : bool :=
  is_prefix p l ||
  match l with
  | [] => false
  | _ :: l' => contains_from p l'
  end.

Definition py_contains (needle s : string) : bool :=
  contains_from (chars needle) (chars s).

(** [x in S] for a set literal of strings *)
Definition in_words (S : list string) (x : string) : bool :=
  existsb (String.eqb x) S.

(** [(v).strip()]: only a [str] has the method *)
Definition strip_method (v : pyval) : res string :=
  match v with
  | PStr s => Ok (py_strip s)
  | _ => Raise AttributeError
  end.

(** [sorted(l)] on strings: a stable insertion sort under [<]; an
    element moves past exactly the elements strictly below it. *)
Fixpoint insert_sorted (x : string) (l : list string) : list string :=
  match l with
  | [] => [x]
  | y :: l' => if String.ltb y x then y :: insert_sorted x l' else x :: l
  end.

Definition py_sorted (l : list string) : list string :=
  foldr insert_sorted [] l.

(** ** The database cursor

    [sqlite3.Cursor] over a read-only database: [backend] gives, for a
    statement and its parameters, the column names of the result and its
    rows; [issued] records every statement executed. *)

Record cursor := {
  backend : string -> list pyval -> list string * list (list pyval);
  issued : list (string * list pyval);
  description : list string;
  pending : list (list pyval);
}.

Definition execute (query : string) (params : list pyval) (c : cursor) : cursor :=
  let '(cols, rows) := backend c query params in
  {| backend := backend c;
     issued := issued c ++ [(query, params)];
     description := cols;
     pending := rows |}.

Definition fetchone (c : cursor) : option (list pyval) * cursor :=
  match pending c with
  | [] => (None, c)
  | r :: rest =>
      (Some r, {| backend := backend c; issued := issued c;
                  description := description c; pending := rest |})
  end.

Definition fetchall (c : cursor) : list (list pyval) * cursor :=
  (pending c, {| backend := backend c; issued := issued c;
                 description := description c; pending := [] |}).

(** ** Match rows *)

(** Column order of the [matches] table ([create_tables]). *)
Definition MATCHES_COLUMNS : list string :=
  [ "match_id"; "tourney_name"; "surface"; "draw_size"; "tourney_level";
    "tourney_date"; "match_num"; "winner_id"; "loser_id"; "winner_seed";
    "loser_seed"; "score"; "best_of"; "round"; "minutes";
    "w_ace"; "w_df"; "w_svpt"; "w_1stIn"; "w_1stWon"; "w_2ndWon";
    "w_SvGms"; "w_bpSaved"; "w_bpFaced";
    "l_ace"; "l_df"; "l_svpt"; "l_1stIn"; "l_1stWon"; "l_2ndWon";
    "l_SvGms"; "l_bpSaved"; "l_bpFaced"; "ongoing" ].

(** A row as a dict.  [fields] holds the columns; [raw] is the entry
    ["__raw__"], the only one whose value is a tuple (no column of the
    schema has that name). *)
Record dict_row := {
  fields : gmap string pyval;
  raw : option (list pyval);
}.

#[global] Instance dict_row_eq_dec : EqDecision dict_row.
Proof. solve_decision. Defined.

Inductive row :=
| RDict (d : dict_row)
| RTuple (t : list pyval).

(** [d.get(k)] *)
Definition dict_get (d : gmap string pyval) (k : string) : pyval :=
  default PNone (d !! k).

(** [d[k]] *)
Definition dict_item (d : gmap string pyval) (k : string) : res pyval :=
  match d !! k with
  | Some v => Ok v
  | None => Raise KeyError
  end.

(** [t[i]] *)
Definition tuple_item (t : list pyval) (i : nat) : res pyval :=
  match t !! i with
  | Some v => Ok v
  | None => Raise IndexError
  end.

(** [d[k] = v] for a pair [(k, v)] *)
Definition dict_put (d : gmap string pyval) (kv : string * pyval)
    : gmap string pyval :=
  <[kv.1 := kv.2]> d.

(** [dict(zip(columns, raw))]: later pairs overwrite earlier ones. *)
Definition dict_zip (columns : list string) (values : list pyval) : gmap string pyval :=
  foldl dict_put ∅ (zip columns values).

Definition fetch_rows_as_dicts (c : cursor) (query : string) (params : list pyval)
    (include_raw : bool) : list dict_row * cursor :=
  let c := execute query params c in
  let columns := description c in
  let '(raws, c) := fetchall c in
  (map (fun raw =>
          {| fields := dict_zip columns raw;
             raw := if include_raw then Some raw else None |}) raws,
   c).

(** The signature key: date, tournament, round, participants, match
    number, score. *)
Abbreviation signature :=
  (string * string * string * list string * string * string)%type.

Definition make_match_signature (r : row) : res signature :=
  match r with
  | RDict d =>
      let tourney_date := dict_get (fields d) "tourney_date" in
      do tourney_name <- res_map py_lower
        (strip_method (py_or (dict_get (fields d) "tourney_name") (PStr "")));
      do round_name <- res_map py_lower
        (strip_method (py_or (dict_get (fields d) "round") (PStr "")));
      let match_num := dict_get (fields d) "match_num" in
      let winner_id := py_str (py_or (dict_get (fields d) "winner_id") (PStr "")) in
      let loser_id := py_str (py_or (dict_get (fields d) "loser_id") (PStr "")) in
      do score <- strip_method (py_or (dict_get (fields d) "score") (PStr ""));
      let participants := py_sorted [winner_id; loser_id] in
      Ok (py_str (py_or tourney_date (PStr "")), tourney_name, round_name,
          participants, py_str (py_or match_num (PStr "")), score)
  | RTuple t =>
      do tourney_date <-
        (if bool_decide (5 < length t)%nat then tuple_item t 5 else Ok PNone);
      do tourney_name <-
        (if bool_decide (1 < length t)%nat
         then do v <- tuple_item t 1; res_map py_lower (strip_method (py_or v (PStr "")))
         else Ok "");
      do round_name <-
        (if bool_decide (13 < length t)%nat
         then do v <- tuple_item t 13; res_map py_lower (strip_method (py_or v (PStr "")))
         else Ok "");
      do match_num <-
        (if bool_decide (6 < length t)%nat then tuple_item t 6 else Ok PNone);
      do winner_id <-
        (if bool_decide (7 < length t)%nat
         then do v <- tuple_item t 7; Ok (py_str (py_or v (PStr "")))
         else Ok "");
      do loser_id <-
        (if bool_decide (8 < length t)%nat
         then do v <- tuple_item t 8; Ok (py_str (py_or v (PStr "")))
         else Ok "");
      do score <-
        (if bool_decide (11 < length t)%nat
         then do v <- tuple_item t 11; strip_method (py_or v (PStr ""))
         else Ok "");
      let participants := py_sorted [winner_id; loser_id] in
      Ok (py_str (py_or tourney_date (PStr "")), tourney_name, round_name,
          participants, py_str (py_or match_num (PStr "")), score)
  end.

(** The seen-set loop shared by [deduplicate_matches],
    [fetch_unique_match_dicts] and the head-to-head action: a row is
    appended when its key is not in [seen]. *)
Section dedup_loop.
Context {A K : Type} `{Countable K}.
Variable key : A -> res K.

Fixpoint dedup_loop (rows : list A) (seen : gset K) (unique_rows : list A)
    : res (list A) :=
  match rows with
  | [] => Ok unique_rows
  | row :: rest =>
      do k <- key row;
      if bool_decide (k ∈ seen)
      then dedup_loop rest seen unique_rows
      else dedup_loop rest ({[k]} ∪ seen) (unique_rows ++ [row])
  end.
End dedup_loop.

Definition dict_signature (d : dict_row) : res signature :=
  make_match_signature (RDict d).

Definition deduplicate_matches (rows : list dict_row) : res (list dict_row) :=
  dedup_loop dict_signature rows ∅ [].

Definition fetch_unique_match_dicts (c : cursor) (query : string)
    (params : list pyval) : res (list dict_row) * cursor :=
  let '(rows, c) := fetch_rows_as_dicts c query params true in
  (dedup_loop
     (fun d => make_match_signature
                 (match raw d with Some t => RTuple t | None => RDict d end))
     rows ∅ [],
   c).

(** A row with its two participant ids set: winner [a], loser [b]. *)
Definition with_participants (r : row) (a b : pyval) : row :=
  match r with
  | RDict d =>
      RDict {| fields := <["winner_id" := a]> (<["loser_id" := b]> (fields d));
               raw := raw d |}
  | RTuple t => RTuple (<[7%nat := a]> (<[8%nat := b]> t))
  end.

(** ** Regular expressions

    The fragment of [re] the source uses, matched by backtracking in
    [re]'s order of preference: alternatives left to right, a greedy
    repetition longest first, a lazy one shortest first.  [prev] is the
    character before the current position (for [\b]). *)

Inductive regex :=
| RChar (p : ascii -> bool)
| RSeq (r1 r2 : regex)
| RAlt (r1 r2 : regex)
| RPlus (greedy : bool) (p : ascii -> bool)
| ROpt (r : regex)
| RGroup (n : nat) (r : regex)
| RWordBoundary.

Record mstate := {
  prev : option ascii;
  rest : list ascii;
  groups : list (nat * string);
}.

Section plus.
Context {R : Type}.
Variable p : ascii -> bool.
Variable k : option ascii -> list ascii -> option R.

Fixpoint plus_greedy (l : list ascii) : option R :=
  match l with
  | c :: l' =>
      if p c
      then match plus_greedy l' with
           | Some r => Some r
           | None => k (Some c) l'
           end
      else None
  | [] => None
  end.

Fixpoint plus_lazy (l : list ascii) : option R :=
  match l with
  | c :: l' =>
      if p c
      then match k (Some c) l' with
           | Some r => Some r
           | None => plus_lazy l'
           end
      else None
  | [] => None
  end.
End plus.

Definition is_word_opt (c : option ascii) : bool :=
  match c with
  | Some c => is_word_char c
  | None => false
  end.

Fixpoint rmatch (r : regex) (st : mstate) (k : mstate -> option mstate)
    : option mstate :=
  match r with
  | RChar p =>
      match rest st with
      | c :: l' =>
          if p c
          then k {| prev := Some c; rest := l'; groups := groups st |}
          else None
      | [] => None
      end
  | RSeq r1 r2 => rmatch r1 st (fun st' => rmatch r2 st' k)
  | RAlt r1 r2 =>
      match rmatch r1 st k with
      | Some x => Some x
      | None => rmatch r2 st k
      end
  | RPlus greedy p =>
      (if greedy then plus_greedy else plus_lazy) p
        (fun pr l => k {| prev := pr; rest := l; groups := groups st |})
        (rest st)
  | ROpt r1 =>
      match rmatch r1 st k with
      | Some x => Some x
      | None => k st
      end
  | RGroup n r1 =>
      rmatch r1 st (fun st' =>
        k {| prev := prev st';
             rest := rest st';
             groups :=
               (n, str (take (length (rest st) - length (rest st')) (rest st)))
               :: groups st' |})
  | RWordBoundary =>
      if xorb (is_word_opt (prev st)) (is_word_opt (head (rest st)))
      then k st
      else None
  end.

(** [re.search]: the leftmost start at which the pattern matches.  The
    result is group 0 and the numbered groups. *)
Fixpoint search_from (r : regex) (pr : option ascii) (l : list ascii)
    : option (string * list (nat * string)) :=
  match rmatch r {| prev := pr; rest := l; groups := [] |} Some with
  | Some st => Some (str (take (length l - length (rest st)) l), groups st)
  | None =>
      match l with
      | c :: l' => search_from r (Some c) l'
      | [] => None
      end
  end.

Definition re_search (r : regex) (s : string)
    : option (string * list (nat * string)) :=
  search_from r None (chars s).

(** [m.group(n)] for a group that took part in the match *)
Definition group (n : nat) (m : string * list (nat * string)) : string :=
  match find (fun g => Nat.eqb (fst g) n) (snd m) with
  | Some g => snd g
  | None => ""
  end.

Definition is_char (x : ascii) : ascii -> bool := Ascii.eqb x.

(** A literal under [(?i)] *)
Definition is_char_ci (x : ascii) (c : ascii) : bool :=
  Ascii.eqb (lower_char c) (lower_char x).

Fixpoint lit (mk : ascii -> ascii -> bool) (l : list ascii) (tail : regex) : regex :=
  match l with
  | [] => tail
  | c :: l' => RSeq (RChar (mk c)) (lit mk l' tail)
  end.

(** [.]: anything but a newline *)
Definition dot (c : ascii) : bool := negb (code c =? 10)%N.

(** [(19|20)\d{2}] (the group does not matter to the callers, which
    read group 0 only) *)
Definition YEAR_RE : regex :=
  RSeq (RAlt (lit is_char (chars "1") (RChar (is_char "9")))
             (lit is_char (chars "2") (RChar (is_char "0"))))
       (RSeq (RChar is_decimal_char) (RChar is_decimal_char)).

(** [\b(?:19|20)\d{2}\b] *)
Definition YEAR_WORD_RE : regex :=
  RSeq RWordBoundary (RSeq YEAR_RE RWordBoundary).

(** [(?i)(.+?)\s+(?:vs\.?|versus|contro)\s+(.+)] *)
Definition VERSUS_RE : regex :=
  RSeq (RGroup 1 (RPlus false dot))
    (RSeq (RPlus true is_space)
      (RSeq (RAlt (lit is_char_ci (chars "vs") (ROpt (RChar (is_char "."))))
                  (RAlt (lit is_char_ci (chars "versu") (RChar (is_char_ci "s")))
                        (lit is_char_ci (chars "contr") (RChar (is_char_ci "o")))))
        (RSeq (RPlus true is_space)
              (RGroup 2 (RPlus true dot))))).

(** ** Heuristic text extractor ([ActionMatchResult]) *)

Definition _PREFIX_FILLERS : list string :=
  [ "il"; "lo"; "la"; "l"; "l'"; "i"; "gli"; "le"; "un"; "una"; "uno";
    "dei"; "degli"; "delle"; "del"; "dello"; "della"; "di"; "d";
    "risultato"; "risultati"; "punteggio"; "match"; "partita"; "partite";
    "ultimi"; "ultime"; "ultimo"; "ultima" ].

Definition _SUFFIX_FILLERS : list string :=
  [ "match"; "partita"; "partite"; "vs"; "contro" ].

Definition _BREAK_TOKENS : list string :=
  [ "a"; "ad"; "al"; "allo"; "alla"; "agli"; "alle"; "ai";
    "nel"; "nello"; "nella"; "nei"; "nelle";
    "su"; "sul"; "sullo"; "sulla"; "sui"; "sugli";
    "per"; "tra"; "fra"; "contro"; "vs"; "vs."; "versus"; "durante";
    "da"; "dal"; "dallo"; "dalla"; "dai"; "dagli"; "dalle" ].

(** The set literal of [_tokenize] *)
Definition CONNECTORS : list string := [ "vs"; "vs."; "versus"; "contro" ].

(** The characters [re.sub] keeps in [_tokenize]: the complement of
    its class *)
Definition keeps_char (c : ascii) : bool :=
  is_latin_letter c || is_char "'" c || is_char " " c || is_char "-" c.

Definition sub_non_letters (text : string) : string :=
  str (map (fun c => if keeps_char c then c else " "%char) (chars text)).

Definition nonempty (s : string) : bool := negb (String.eqb s "").

Definition is_nil {A} (l : list A) : bool :=
  match l with
  | [] => true
  | _ => false
  end.

Fixpoint tokenize_loop (tokens result : list string) : list string :=
  match tokens with
  | [] => result
  | tok :: tokens' =>
      let lower := py_lower tok in
      if in_words CONNECTORS lower then tokenize_loop tokens' result
      else if py_isdigit tok then tokenize_loop tokens' result
      else if is_nil result && in_words _PREFIX_FILLERS lower
           then tokenize_loop tokens' result
      else tokenize_loop tokens' (result ++ [tok])%list
  end.

Definition _tokenize (text : string) : list string :=
  let cleaned := sub_non_letters text in
  let tokens := List.filter nonempty (py_split cleaned) in
  tokenize_loop tokens [].

(** [tok.lower().strip(cs)] with [cs] the apostrophe and U+2019; of
    the two only the apostrophe is a Latin-1 character. *)
Definition strip_quotes (tok : string) : string :=
  strip_by (is_char "'") (py_lower tok).

(** The collecting loop of [_clean_player_fragment]: up to three tokens,
    stopping at a break token or a number. *)
Fixpoint collect_loop (tokens collected : list string) : list string :=
  match tokens with
  | [] => collected
  | tok :: tokens' =>
      let lower := py_lower tok in
      if in_words _BREAK_TOKENS lower || py_isdigit tok then collected
      else
        let collected := (collected ++ [tok])%list in
        if bool_decide (3 <= length collected)%nat then collected
        else collect_loop tokens' collected
  end.

Definition _clean_player_fragment (fragment : string) (from_end : bool) : string :=
  let tokens := _tokenize fragment in
  if is_nil tokens then "" else
  let tokens :=
    drop_while (fun t => in_words _PREFIX_FILLERS (strip_quotes t)) tokens in
  let tokens :=
    rev (drop_while (fun t => in_words _SUFFIX_FILLERS (strip_quotes t))
           (rev tokens)) in
  if is_nil tokens then "" else
  if from_end then
    let collected := collect_loop (rev tokens) [] in
    let collected :=
      if is_nil collected then option_list (last tokens) else collected in
    py_join " " (rev collected)
  else
    let collected := collect_loop tokens [] in
    let collected :=
      if is_nil collected then option_list (head tokens) else collected in
    py_join " " collected.

Fixpoint extract_loop (candidates results : list string) : list string :=
  match candidates with
  | [] => results
  | candidate :: candidates' =>
      let cleaned := strip_by (mem_char " ,.-") candidate in
      if nonempty cleaned
         && forallb (fun existing =>
                       negb (String.eqb (py_lower cleaned) (py_lower existing)))
              results
      then extract_loop candidates' (results ++ [cleaned])%list
      else extract_loop candidates' results
  end.

Definition _extract_players_from_text (text : option string) : list string :=
  match text with
  | None => []
  | Some text =>
      if negb (nonempty text) then [] else
      match re_search VERSUS_RE text with
      | None => []
      | Some m =>
          let left := _clean_player_fragment (group 1 m) true in
          let right := _clean_player_fragment (group 2 m) false in
          extract_loop [left; right] []
      end
  end.

(** ** Surface and year normalisation *)

Definition SURFACE_LABELS : list (string * string) :=
  [ ("Hard", "cemento"); ("Grass", "erba"); ("Clay", "terra battuta");
    ("Carpet", "moquette") ].

(** Insertion order matters: [extract_surface_from_text] returns the
    value of the first key found in the text. *)
Definition SURFACE_KEYWORDS : list (string * string) :=
  [ ("terra battuta", "Clay"); ("terra", "Clay"); ("clay", "Clay");
    ("erba", "Grass"); ("grass", "Grass");
    ("cemento", "Hard"); ("cement", "Hard"); ("hard", "Hard");
    ("moquette", "Carpet"); ("carpet", "Carpet") ].

Definition VALID_SURFACE_CODES : list string := map fst SURFACE_LABELS.

(** [d.get(k, default)] on a dict of strings *)
Definition assoc_get (d : list (string * string)) (k : string) (default : pyval)
    : pyval :=
  match find (fun kv => String.eqb (fst kv) k) d with
  | Some kv => PStr (snd kv)
  | None => default
  end.

Fixpoint first_keyword (items : list (string * string)) (s : string) : pyval :=
  match items with
  | [] => PNone
  | (key, value) :: items' =>
      if py_contains key s then PStr value else first_keyword items' s
  end.

Definition extract_surface_from_text (text : pyval) : pyval :=
  if negb (truthy text) then PNone
  else first_keyword SURFACE_KEYWORDS (py_lower (py_str text)).

Definition normalize_surface_value (value : pyval) : pyval :=
  if negb (truthy value) then PNone
  else assoc_get SURFACE_KEYWORDS (py_lower (py_str value))
         (extract_surface_from_text (PStr (py_str value))).

Definition extract_year_from_text (text : string) : pyval :=
  if negb (nonempty text) then PNone
  else match re_search YEAR_WORD_RE text with
       | Some m => PStr (fst m)
       | None => PNone
       end.

Definition normalize_year_value (value : pyval) : pyval :=
  if negb (truthy value) then PNone
  else match re_search YEAR_RE (py_str value) with
       | Some m => PStr (fst m)
       | None => PNone
       end.

(** ** Filter context *)

(** The latest message: each key may be absent. *)
Record message := {
  m_intent : option (gmap string pyval);
  m_text : option string;
  m_entities : option (list (gmap string pyval));
}.

Record tracker := {
  latest_message : option message;
  slots : gmap string pyval;
}.

Definition get_slot (t : tracker) (key : string) : pyval :=
  dict_get (slots t) key.

Record FilterContext := {
  intent_name : pyval;
  text : string;
  entities : list (gmap string pyval);
  year : pyval;
  surface : pyval;
  tournament : pyval;
  message_year : pyval;
  message_surface : pyval;
  message_tournament : pyval;
  slot_year : pyval;
  slot_surface : pyval;
  slot_tournament : pyval;
  explicit_year : bool;
  explicit_surface : bool;
  explicit_tournament : bool;
}.

Definition is_not_none (v : pyval) : bool :=
  match v with
  | PNone => false
  | _ => true
  end.

(** [[e.get("value") for e in entities if e.get("entity") == name]] *)
Definition entity_values (name : string) (entities : list (gmap string pyval))
    : list pyval :=
  map (fun e => dict_get e "value")
      (List.filter (fun e => eq_str (dict_get e "entity") name) entities).

Definition build_filter_context (t : tracker) : FilterContext :=
  let latest :=
    default {| m_intent := None; m_text := None; m_entities := None |}
            (latest_message t) in
  let intent_name :=
    py_or (dict_get (default ∅ (m_intent latest)) "name") (PStr "") in
  let text := default "" (m_text latest) in
  let entities := default [] (m_entities latest) in
  let year_entities := entity_values "year" entities in
  let surface_entities := entity_values "surface" entities in
  let tournament_entities := entity_values "tournament" entities in
  let message_year :=
    match year_entities with
    | v :: _ => normalize_year_value v
    | [] => extract_year_from_text text
    end in
  let message_surface :=
    match surface_entities with
    | v :: _ => normalize_surface_value v
    | [] => extract_surface_from_text (PStr text)
    end in
  let message_tournament :=
    match tournament_entities with
    | v :: _ => v
    | [] => PNone
    end in
  let slot_year := get_slot t "year" in
  let slot_surface := get_slot t "surface" in
  let slot_tournament := get_slot t "tournament_name" in
  let inform := eq_str intent_name "inform_filters" in
  let year := if inform then py_or message_year slot_year else message_year in
  let surface :=
    if inform then py_or message_surface slot_surface else message_surface in
  let tournament :=
    if inform then py_or message_tournament slot_tournament
    else message_tournament in
  {| intent_name := intent_name;
     text := text;
     entities := entities;
     year := year;
     surface := surface;
     tournament := tournament;
     message_year := message_year;
     message_surface := message_surface;
     message_tournament := message_tournament;
     slot_year := slot_year;
     slot_surface := slot_surface;
     slot_tournament := slot_tournament;
     explicit_year :=
       if inform then is_not_none message_year else is_not_none year;
     explicit_surface :=
       if inform then is_not_none message_surface else is_not_none surface;
     explicit_tournament :=
       if inform then is_not_none message_tournament
       else is_not_none tournament |}.

(** ** Player resolution *)

(** The three statements of [validate_and_find_player] (white space
    collapsed). *)
Definition PLAYER_EXACT_SQL : string :=
  "SELECT id, player_name FROM players WHERE LOWER(player_name) = LOWER(?)".

Definition PLAYER_PREFIX_SQL : string :=
  "SELECT p.id, p.player_name, MAX(m.tourney_date) AS last_match FROM players p LEFT JOIN matches m ON (p.id = m.winner_id OR p.id = m.loser_id) WHERE LOWER(p.player_name) LIKE LOWER(?) GROUP BY p.id, p.player_name ORDER BY (last_match IS NULL) ASC, last_match DESC LIMIT 1".

Definition PLAYER_SUBSTRING_SQL : string :=
  "SELECT p.id, p.player_name, MAX(m.tourney_date) AS last_match, COUNT(m.match_id) AS match_count FROM players p LEFT JOIN matches m ON (p.id = m.winner_id OR p.id = m.loser_id) WHERE LOWER(p.player_name) LIKE LOWER(?) GROUP BY p.id, p.player_name ORDER BY (last_match IS NULL) ASC, last_match DESC, match_count DESC LIMIT 1".

(** [return row[0], row[1]] *)
Definition first_two (r : list pyval) : res (pyval * pyval) :=
  do a <- tuple_item r 0;
  do b <- tuple_item r 1;
  Ok (a, b).

(** [if row:] for the result of [fetchone] *)
Definition row_truthy (r : option (list pyval)) : option (list pyval) :=
  match r with
  | Some ((_ :: _) as r) => Some r
  | _ => None
  end.

Definition validate_and_find_player (player_name : option string) (c : cursor)
    : res (pyval * pyval) * cursor :=
  match player_name with
  | None => (Ok (PNone, PNone), c)
  | Some player_name =>
      if negb (nonempty player_name)
         || bool_decide (String.length (py_strip player_name) < 2)%nat
      then (Ok (PNone, PNone), c)
      else
        let clean := py_strip player_name in
        let c := execute PLAYER_EXACT_SQL [PStr clean] c in
        let '(r, c) := fetchone c in
        match row_truthy r with
        | Some r => (first_two r, c)
        | None =>
            let c := execute PLAYER_PREFIX_SQL [PStr (clean ++ "%")] c in
            let '(r, c) := fetchone c in
            match row_truthy r with
            | Some r => (first_two r, c)
            | None =>
                let c :=
                  execute PLAYER_SUBSTRING_SQL [PStr ("%" ++ clean ++ "%")] c in
                let '(r, c) := fetchone c in
                match row_truthy r with
                | Some r => (first_two r, c)
                | None => (Ok (PNone, PNone), c)
                end
            end
        end
  end.

(** ** Statistics aggregation ([ActionPlayerStats.run]) *)

(** The white space [int] skips around the digits: the ASCII white
    space and, above it, U+0085 and U+00A0.  The separators U+001C to
    U+001F, which [str.strip] removes, are not skipped: [int] raises
    ValueError on them. *)
Definition is_int_space (c : ascii) : bool :=
  in_range 9 13 c || (code c =? 32)%N || (code c =? 133)%N || (code c =? 160)%N.

(** [int(s)] for a string: optional sign, decimal digits, single
    underscores between digits, white space around. *)
Fixpoint digits_value (l : list ascii) (acc : Z) (after_digit : bool) : option Z :=
  match l with
  | [] => if after_digit then Some acc else None
  | c :: l' =>
      if is_decimal_char c
      then digits_value l' (10 * acc + (Z.of_N (code c) - 48))%Z true
      else if is_char "_" c && after_digit
           then digits_value l' acc false
           else None
  end.

Definition int_of_string (s : string) : option Z :=
  match chars (strip_by is_int_space s) with
  | c :: l =>
      if is_char "-" c then Z.opp <$> digits_value l 0%Z false
      else if is_char "+" c then digits_value l 0%Z false
      else digits_value (c :: l) 0%Z false
  | [] => None
  end.

(** [int(v)] *)
Definition py_int (v : pyval) : res Z :=
  match v with
  | PNone => Raise TypeError
  | PBool b => Ok (if b then 1 else 0)%Z
  | PInt z => Ok z
  | PStr s =>
      match int_of_string s with
      | Some z => Ok z
      | None => Raise ValueError
      end
  end.

Definition safe_int (v : pyval) : Z :=
  match py_int v with
  | Ok z => z
  | Raise _ => 0%Z
  end.

(** [str.upper] on one character, as code points: three Latin-1
    characters have an upper case outside Latin-1 or of two letters. *)
Definition upper_codes (c : ascii) : list N :=
  if in_range 97 122 c || (in_range 224 254 c && negb (code c =? 247)%N)
  then [(code c - 32)%N]
  else if (code c =? 181)%N then [924%N]
  else if (code c =? 223)%N then [83%N; 83%N]
  else if (code c =? 255)%N then [376%N]
  else [code c].

Definition py_upper (s : string) : list N := flat_map upper_codes (chars s).

Definition codes (s : string) : list N := map code (chars s).

Fixpoint is_prefix_N (p l : list N) : bool :=
  match p, l with
  | [], _ => true
  | a :: p', b :: l' => (a =? b)%N && is_prefix_N p' l'
  | _ :: _, [] => false
  end.

Fixpoint contains_N (p l : list N) : bool :=
  is_prefix_N p l ||
  match l with
  | [] => false
  | _ :: l' => contains_N p l'
  end.

(** [n / d] on ints *)
Definition py_truediv (n d : Z) : res Q :=
  if (d =? 0)%Z then Raise ZeroDivisionError
  else Ok (inject_Z n / inject_Z d)%Q.

(** [n / d * 100.0] *)
Definition percent (n d : Z) : res Q :=
  do q <- py_truediv n d;
  Ok (q * 100)%Q.

(** One entry of a breakdown: [{"matches": m, "wins": w}] under its key. *)
Definition tally (key : string) (is_winner : bool) (m : gmap string (Z * Z))
    : gmap string (Z * Z) :=
  let e := default (0, 0)%Z (m !! key) in
  <[key := ((e.1 + 1)%Z, if is_winner then (e.2 + 1)%Z else e.2)]> m.

Record counters := {
  sum_aces : Z; sum_dfs : Z; sum_svpt : Z;
  sum_1st_in : Z; sum_1st_won : Z; sum_2nd_won : Z;
  sum_svgms : Z; sum_bp_saved : Z; sum_bp_faced : Z;
  minutes_total : Z; minutes_count : Z;
  retires_total : Z; retires_wins : Z; retires_losses : Z;
  finals_played : Z; titles_won : Z; tb_matches : Z;
  surface_stats : gmap string (Z * Z);
  tournament_stats : gmap string (Z * Z);
  year_stats : gmap string (Z * Z);
}.

Definition counters_init : counters :=
  {| sum_aces := 0; sum_dfs := 0; sum_svpt := 0;
     sum_1st_in := 0; sum_1st_won := 0; sum_2nd_won := 0;
     sum_svgms := 0; sum_bp_saved := 0; sum_bp_faced := 0;
     minutes_total := 0; minutes_count := 0;
     retires_total := 0; retires_wins := 0; retires_losses := 0;
     finals_played := 0; titles_won := 0; tb_matches := 0;
     surface_stats := ∅; tournament_stats := ∅; year_stats := ∅ |}.

(** [match[w] if is_winner else match[l]], through [safe_int] *)
Definition side_stat (m : gmap string pyval) (is_winner : bool) (w l : string)
    : res Z :=
  do v <- dict_item m (if is_winner then w else l);
  Ok (safe_int v).

Definition FINAL_ROUNDS : list (list N) := [codes "F"; codes "FIN"; codes "FINAL"].

(** The body of the loop over [match_rows]. *)
Definition aggregate_step (player_id_str : string) (year_filter : pyval)
    (a : counters) (mt : gmap string pyval) : res counters :=
  do winner <- dict_item mt "winner_id";
  let is_winner := String.eqb (py_str winner) player_id_str in
  do surface_code <- strip_method (py_or (dict_get mt "surface") (PStr ""));
  let surface_code := if nonempty surface_code then surface_code else "N/A" in
  let surface_stats := tally surface_code is_winner (surface_stats a) in
  do tournament_name <-
    strip_method (py_or (dict_get mt "tourney_name") (PStr "Sconosciuto"));
  let tournament_stats := tally tournament_name is_winner (tournament_stats a) in
  let year_stats :=
    if truthy year_filter then year_stats a
    else
      let raw_date := py_str (py_or (dict_get mt "tourney_date") (PStr "")) in
      let year :=
        if bool_decide (4 <= String.length raw_date)%nat
        then str (take 4 (chars raw_date)) else "" in
      if py_isdigit year then tally year is_winner (year_stats a)
      else year_stats a in
  do ace <- side_stat mt is_winner "w_ace" "l_ace";
  do df <- side_stat mt is_winner "w_df" "l_df";
  do svpt <- side_stat mt is_winner "w_svpt" "l_svpt";
  do first_in <- side_stat mt is_winner "w_1stIn" "l_1stIn";
  do first_won <- side_stat mt is_winner "w_1stWon" "l_1stWon";
  do second_won <- side_stat mt is_winner "w_2ndWon" "l_2ndWon";
  do svgms <- side_stat mt is_winner "w_SvGms" "l_SvGms";
  do bp_saved <- side_stat mt is_winner "w_bpSaved" "l_bpSaved";
  do bp_faced <- side_stat mt is_winner "w_bpFaced" "l_bpFaced";
  let minutes := safe_int (dict_get mt "minutes") in
  let score := py_str (py_or (dict_get mt "score") (PStr "")) in
  let retired :=
    contains_N (codes "RET") (py_upper score)
    || contains_N (codes "W/O") (py_upper score) in
  let tie_break :=
    contains_N (codes "TB") (py_upper score) || py_contains "7-" score in
  let final :=
    existsb
      (fun f => bool_decide
                  (py_upper (py_str (py_or (dict_get mt "round") (PStr ""))) = f))
      FINAL_ROUNDS in
  Ok {| sum_aces := sum_aces a + ace;
        sum_dfs := sum_dfs a + df;
        sum_svpt := sum_svpt a + svpt;
        sum_1st_in := sum_1st_in a + first_in;
        sum_1st_won := sum_1st_won a + first_won;
        sum_2nd_won := sum_2nd_won a + second_won;
        sum_svgms := sum_svgms a + svgms;
        sum_bp_saved := sum_bp_saved a + bp_saved;
        sum_bp_faced := sum_bp_faced a + bp_faced;
        minutes_total :=
          if (minutes =? 0)%Z then minutes_total a else minutes_total a + minutes;
        minutes_count :=
          if (minutes =? 0)%Z then minutes_count a else minutes_count a + 1;
        retires_total := if retired then retires_total a + 1 else retires_total a;
        retires_wins :=
          if retired && is_winner then retires_wins a + 1 else retires_wins a;
        retires_losses :=
          if retired && negb is_winner then retires_losses a + 1
          else retires_losses a;
        finals_played := if final then finals_played a + 1 else finals_played a;
        titles_won :=
          if final && is_winner then titles_won a + 1 else titles_won a;
        tb_matches := if tie_break then tb_matches a + 1 else tb_matches a;
        surface_stats := surface_stats;
        tournament_stats := tournament_stats;
        year_stats := year_stats |}%Z.

Fixpoint aggregate_loop (player_id_str : string) (year_filter : pyval)
    (rows : list (gmap string pyval)) (a : counters) : res counters :=
  match rows with
  | [] => Ok a
  | mt :: rows' =>
      do a <- aggregate_step player_id_str year_filter a mt;
      aggregate_loop player_id_str year_filter rows' a
  end.

(** [sum(1 for row in match_rows if str(row["winner_id"]) == player_id_str)] *)
Fixpoint count_wins (player_id_str : string) (rows : list (gmap string pyval))
    : res Z :=
  match rows with
  | [] => Ok 0%Z
  | mt :: rows' =>
      do winner <- dict_item mt "winner_id";
      do n <- count_wins player_id_str rows';
      Ok (if String.eqb (py_str winner) player_id_str then 1 + n else n)%Z
  end.

Record stats := {
  total : Z;
  wins : Z;
  losses : Z;
  win_rate : Q;
  sums : counters;
  first_in_pct : Q;
  first_won_pct : Q;
  second_won_pct : Q;
  bp_saved_pct : Q;
}.

(** [(n / d * 100.0) if guard else 0.0] *)
Definition guarded_percent (n d guard : Z) : res Q :=
  if (guard =? 0)%Z then Ok 0%Q else percent n d.

(** The statistics block of [run], from [player_id_str = str(player_id)]
    to the four derived percentages: the counts, the loop over the rows
    and the percentages, each with the guard the source writes.  It
    follows the return at [total == 0]: [run] executes it on a list that
    is not empty only, which [stats_report] below expresses. *)
Definition aggregate (match_rows : list (gmap string pyval)) (player_id : pyval)
    (year_filter : pyval) : res stats :=
  let total := Z.of_nat (length match_rows) in
  let player_id_str := py_str player_id in
  do wins <- count_wins player_id_str match_rows;
  let losses := (total - wins)%Z in
  do win_rate <- guarded_percent wins total total;
  do a <- aggregate_loop player_id_str year_filter match_rows counters_init;
  do first_in_pct <- guarded_percent (sum_1st_in a) (sum_svpt a) (sum_svpt a);
  do first_won_pct <- guarded_percent (sum_1st_won a) (sum_1st_in a) (sum_1st_in a);
  do second_won_pct <-
    guarded_percent (sum_2nd_won a) (sum_svpt a - sum_1st_in a)
      (sum_svpt a - sum_1st_in a);
  do bp_saved_pct <-
    guarded_percent (sum_bp_saved a) (sum_bp_faced a) (sum_bp_faced a);
  Ok {| total := total; wins := wins; losses := losses; win_rate := win_rate;
        sums := a;
        first_in_pct := first_in_pct; first_won_pct := first_won_pct;
        second_won_pct := second_won_pct; bp_saved_pct := bp_saved_pct |}.

(** What [run] does with the deduplicated rows, from [total =
    len(match_rows)] on.  At [total == 0] it utters that no data is
    available and returns ([None] here; the events of that return are
    [stats_zero_result_events]): no count, rate or percentage is
    computed.  Otherwise it computes the statistics block and, in the
    report, the two per-match averages [sum_aces / total] and
    [sum_dfs / total], which have no guard of their own. *)
Definition stats_report (match_rows : list (gmap string pyval)) (player_id : pyval)
    (year_filter : pyval) : res (option (stats * Q * Q)) :=
  if (Z.of_nat (length match_rows) =? 0)%Z then Ok None
  else
    do st <- aggregate match_rows player_id year_filter;
    do ace_avg <- py_truediv (sum_aces (sums st)) (total st);
    do df_avg <- py_truediv (sum_dfs (sums st)) (total st);
    Ok (Some (st, ace_avg, df_avg)).

(** ** The match queries of the public operations

    For each operation: the statement it builds, the fetch, and the list
    of rows its report or aggregation then iterates over. *)

(** The year, surface and tournament clauses appended to a statement. *)
Definition with_filters (qp : string * list pyval)
    (year_filter surface_filter tournament_filter : pyval)
    : string * list pyval :=
  let qp :=
    if truthy year_filter
    then (qp.1 ++ " AND tourney_date LIKE ?",
          (qp.2 ++ [PStr (py_str year_filter ++ "%")])%list)
    else qp in
  let qp :=
    if truthy surface_filter
    then (qp.1 ++ " AND surface = ?", (qp.2 ++ [surface_filter])%list)
    else qp in
  if truthy tournament_filter
  then (qp.1 ++ " AND LOWER(tourney_name) LIKE LOWER(?)",
        (qp.2 ++ [PStr ("%" ++ py_str tournament_filter ++ "%")])%list)
  else qp.

(** [ActionPlayerStats.run]: named columns, then [deduplicate_matches]. *)
Definition player_stats_rows (c : cursor) (player_id : pyval)
    (year_filter surface_filter tournament_filter : pyval)
    : res (list dict_row) * cursor :=
  let qp :=
    with_filters
      ("SELECT match_id, tourney_name, surface, tourney_date, winner_id, loser_id, score, round, minutes, "
       ++ "w_ace, w_df, w_svpt, w_1stIn, w_1stWon, w_2ndWon, w_SvGms, w_bpSaved, w_bpFaced, "
       ++ "l_ace, l_df, l_svpt, l_1stIn, l_1stWon, l_2ndWon, l_SvGms, l_bpSaved, l_bpFaced "
       ++ "FROM matches WHERE (winner_id = ? OR loser_id = ?)",
       [player_id; player_id])
      year_filter surface_filter tournament_filter in
  let query := qp.1 ++ " ORDER BY tourney_date DESC, match_id DESC" in
  let '(rows, c) := fetch_rows_as_dicts c query qp.2 false in
  (deduplicate_matches rows, c).

Definition PAIR_SQL : string :=
  "SELECT * FROM matches "
  ++ "WHERE ((winner_id = ? AND loser_id = ?) OR (winner_id = ? AND loser_id = ?))".

(** [ActionHeadToHead.run]: raw tuples, with the seen-set loop inline. *)
Definition head_to_head_rows (c : cursor) (p1_id p2_id : pyval)
    (year_filter surface_filter tournament_filter : pyval)
    : res (list (list pyval)) * cursor :=
  let qp :=
    with_filters (PAIR_SQL, [p1_id; p2_id; p2_id; p1_id])
      year_filter surface_filter tournament_filter in
  let query := qp.1 ++ " ORDER BY tourney_date DESC, match_id DESC" in
  let c := execute query qp.2 c in
  let '(raw_rows, c) := fetchall c in
  (dedup_loop (fun t => make_match_signature (RTuple t)) raw_rows ∅ [], c).

(** [ActionMatchResult._handle_pair]: [fetch_unique_match_dicts]. *)
Definition handle_pair_rows (c : cursor) (p1_id p2_id : pyval)
    (year_filter surface_filter tournament_filter : pyval)
    : res (list dict_row) * cursor :=
  let qp :=
    with_filters (PAIR_SQL, [p1_id; p2_id; p2_id; p1_id])
      year_filter surface_filter tournament_filter in
  let query := qp.1 ++ " ORDER BY tourney_date DESC, match_id DESC LIMIT 10" in
  fetch_unique_match_dicts c query qp.2.

(** [ActionMatchResult._handle_single]: the fetched rows as they are. *)
Definition handle_single_rows (c : cursor) (player_id : pyval)
    (year_filter surface_filter tournament_filter : pyval)
    : list (list pyval) * cursor :=
  let qp :=
    with_filters
      ("SELECT * FROM matches WHERE winner_id = ? OR loser_id = ?",
       [player_id; player_id])
      year_filter surface_filter tournament_filter in
  let query := qp.1 ++ " ORDER BY tourney_date DESC, match_id DESC LIMIT 5" in
  let c := execute query qp.2 c in
  fetchall c.

(** [ActionMatchResult._handle_tournament]: the fetched rows as they are. *)
Definition handle_tournament_rows (c : cursor) (canonical_tourney : pyval)
    (year_filter surface_filter : pyval) : list (list pyval) * cursor :=
  let qp :=
    with_filters
      ("SELECT * FROM matches WHERE tourney_name = ?", [canonical_tourney])
      year_filter surface_filter PNone in
  let query := qp.1 ++ " ORDER BY tourney_date DESC, match_id DESC LIMIT 5" in
  let c := execute query qp.2 c in
  fetchall c.

(** [ActionMatchResult._handle_latest]: the fetched rows as they are. *)
Definition handle_latest_rows (c : cursor) (year_filter surface_filter : pyval)
    : list (list pyval) * cursor :=
  let conditions :=
    ((if truthy year_filter then ["tourney_date LIKE ?"] else [])
     ++ (if truthy surface_filter then ["surface = ?"] else []))%list in
  let params :=
    ((if truthy year_filter then [PStr (py_str year_filter ++ "%")] else [])
     ++ (if truthy surface_filter then [surface_filter] else []))%list in
  let query := "SELECT * FROM matches" in
  let query :=
    if is_nil conditions then query
    else query ++ " WHERE " ++ py_join " AND " conditions in
  let query := query ++ " ORDER BY tourney_date DESC, match_id DESC LIMIT 5" in
  let c := execute query params c in
  fetchall c.

(** The signature of a raw tuple. *)
Definition tuple_signature (t : list pyval) : res signature :=
  make_match_signature (RTuple t).

(** ** The tokenizer as the specification words it

    The token list after the connector and number filters, with a single
    leading filler dropped, and only when it is the very first token. *)
Definition keeps_token (tok : string) : bool :=
  negb (in_words CONNECTORS (py_lower tok)) && negb (py_isdigit tok).

Definition is_filler (tok : string) : bool :=
  in_words _PREFIX_FILLERS (py_lower tok).

Definition tokenize_one_filler (text : string) : list string :=
  let tokens := List.filter nonempty (py_split (sub_non_letters text)) in
  match List.filter keeps_token tokens with
  | tok :: tokens' => if is_filler tok then tokens' else tok :: tokens'
  | [] => []
  end.

(** A tracker whose latest message has the given intent name, text and
    entities. *)
Definition tracker_of (intent : string) (txt : option string)
    (ents : option (list (gmap string pyval))) (sl : gmap string pyval) : tracker :=
  {| latest_message :=
       Some {| m_intent := Some {[ "name" := PStr intent ]};
               m_text := txt;
               m_entities := ents |};
     slots := sl |}.

(** [None], or one of the surface codes of the database. *)
Definition valid_surface (v : pyval) : Prop :=
  v = PNone \/ exists code, v = PStr code /\ In code VALID_SURFACE_CODES.

(** A row has both participant fields: always as a dict (a missing key
    reads as [None]), as a tuple when it reaches the loser column. *)
Definition has_participants (r : row) : Prop :=
  match r with
  | RDict _ => True
  | RTuple t => (8 < length t)%nat
  end.

(** The first row of a list with a given key. *)
Definition first_with {A K} `{EqDecision K} (key : A -> res K) (k : K)
    (rows : list A) : option A :=
  find (fun r => bool_decide (key r = Ok k)) rows.

(** ** Sample data *)

(** The final of one tournament as a full [matches] row. *)
Definition sample_match (match_id : Z) (winner loser : string) : list pyval :=
  [ PInt match_id; PStr "Shanghai Masters"; PStr "Hard"; PInt 96; PStr "M";
    PStr "20251001"; PInt 300; PStr winner; PStr loser; PNone;
    PNone; PStr "6-4 7-6(3)"; PInt 3; PStr "F"; PInt 121;
    PInt 7; PInt 2; PInt 70; PInt 45; PInt 36; PInt 14; PInt 11; PInt 3; PInt 4;
    PInt 5; PInt 3; PInt 74; PInt 47; PInt 33; PInt 12; PInt 11; PInt 4; PInt 7;
    PInt 0 ].

(** A database in which live-update ingestion stored the same contest
    twice, under two match ids: every statement returns both rows. *)
Definition overlapping_cursor : cursor :=
  {| backend := fun _ _ =>
       (MATCHES_COLUMNS,
        [ sample_match 1201 "105173" "100644";
          sample_match 1187 "105173" "100644" ]);
     issued := [];
     description := [];
     pending := [] |}.


(** The sample row as [fetch_rows_as_dicts] builds it. *)
Definition as_dict (t : list pyval) : dict_row :=
  {| fields := dict_zip MATCHES_COLUMNS t; raw := None |}.

(** Three rows: a contest, the same contest under another match id, and
    a different contest. *)
Definition sample_rows : list dict_row :=
  [ as_dict (sample_match 1201 "105173" "100644");
    as_dict (sample_match 1187 "105173" "100644");
    as_dict (sample_match 1150 "104925" "100644") ].

(** A computation that does not end in a division by zero. *)
Definition no_zero_division {A} (m : res A) : Prop := m <> Raise ZeroDivisionError.


(** ** Further helpers of [actions.py] *)

(** The events an action returns. *)
Inductive event :=
| SlotSet (key : string) (value : pyval)
| FollowupAction (name : string).

#[global] Instance event_eq_dec : EqDecision event.
Proof. solve_decision. Defined.

Definition LAST_CONTEXT_SLOT : string := "last_context_action".

(** [SURFACE_LABELS.get(surface, surface)] *)
Definition surface_label (surface : pyval) : pyval :=
  match surface with
  | PStr s => assoc_get SURFACE_LABELS s surface
  | _ => surface
  end.

Definition describe_filters (year surface tournament : pyval) : list string :=
  ((if truthy year then [("anno: " ++ py_str year)%string] else [])
   ++ (if truthy surface
       then [("superficie: " ++ py_str (surface_label surface))%string] else [])
   ++ (if truthy tournament
       then [("torneo: " ++ py_str tournament)%string] else []))%list.

(** [FilterContext.slot_events] *)
Definition slot_events (ctx : FilterContext) (clear_unset : bool) : list event :=
  if eq_str (intent_name ctx) "inform_filters"
  then
    ((if explicit_year ctx then [SlotSet "year" (message_year ctx)] else [])
     ++ (if explicit_surface ctx
         then [SlotSet "surface" (message_surface ctx)] else [])
     ++ (if explicit_tournament ctx
         then [SlotSet "tournament_name" (message_tournament ctx)] else []))%list
  else
    ((if explicit_year ctx then [SlotSet "year" (year ctx)]
      else if clear_unset then [SlotSet "year" PNone] else [])
     ++ (if explicit_surface ctx then [SlotSet "surface" (surface ctx)]
         else if clear_unset then [SlotSet "surface" PNone] else [])
     ++ (if explicit_tournament ctx
         then [SlotSet "tournament_name" (tournament ctx)]
         else if clear_unset then [SlotSet "tournament_name" PNone] else []))%list.

(** [FilterContext.active_slot_events] *)
Definition active_slot_events (ctx : FilterContext) : list event :=
  ((if truthy (year ctx) then [SlotSet "year" (year ctx)] else [])
   ++ (if truthy (surface ctx) then [SlotSet "surface" (surface ctx)] else [])
   ++ (if truthy (tournament ctx)
       then [SlotSet "tournament_name" (tournament ctx)] else []))%list.

(** [s[i:j]] *)
Definition slice (i j : nat) (s : string) : string :=
  str (take (j - i) (drop i (chars s))).

Definition format_tournament_date (date_str : pyval) : string :=
  if negb (truthy date_str) then "N/A"
  else
    let s := py_str date_str in
    if negb (Nat.eqb (String.length s) 8) || negb (py_isdigit s) then s
    else slice 6 8 s ++ "/" ++ slice 4 6 s ++ "/" ++ slice 0 4 s.

Definition PLAYER_NAME_SQL : string :=
  "SELECT player_name FROM players WHERE id = ?".

Definition get_player_name_by_id (player_id : pyval) (c : cursor) : pyval * cursor :=
  if negb (truthy player_id) then (PStr "Unknown", c)
  else
    let c := execute PLAYER_NAME_SQL [player_id] c in
    let '(r, c) := fetchone c in
    match row_truthy r with
    | Some (name :: _) => (name, c)
    | _ => (player_id, c)
    end.

(** The three statements of [find_best_tournament] (white space
    collapsed). *)
Definition TOURNEY_EXACT_SQL : string :=
  "SELECT tourney_name FROM matches WHERE LOWER(tourney_name) = LOWER(?) ORDER BY tourney_date DESC LIMIT 1".

Definition TOURNEY_LIKE_SQL : string :=
  "SELECT tourney_name, COUNT(*) AS cnt FROM matches WHERE LOWER(tourney_name) LIKE LOWER(?) GROUP BY tourney_name ORDER BY cnt DESC LIMIT 1".

(** [row[0]] of a row that passed [if row:] *)
Definition first_cell (r : list pyval) : pyval :=
  match r with
  | v :: _ => v
  | [] => PNone
  end.

Definition find_best_tournament (c : cursor) (candidate : option string)
    : pyval * cursor :=
  match candidate with
  | None => (PNone, c)
  | Some candidate =>
      if negb (nonempty candidate) then (PNone, c) else
      let clean := py_strip candidate in
      if bool_decide (String.length clean < 3)%nat then (PNone, c) else
      let c := execute TOURNEY_EXACT_SQL [PStr clean] c in
      let '(r, c) := fetchone c in
      match row_truthy r with
      | Some r => (first_cell r, c)
      | None =>
          let c := execute TOURNEY_LIKE_SQL [PStr ("%" ++ clean ++ "%")] c in
          let '(r, c) := fetchone c in
          match row_truthy r with
          | Some r => (first_cell r, c)
          | None =>
              let c :=
                execute TOURNEY_LIKE_SQL
                  [PStr ("%" ++ py_join "%" (py_split clean) ++ "%")] c in
              let '(r, c) := fetchone c in
              match row_truthy r with
              | Some r => (first_cell r, c)
              | None => (PNone, c)
              end
          end
      end
  end.

(** The class of [guess_tournament_from_text]: letters and apostrophe *)
Definition is_name_char (c : ascii) : bool :=
  is_latin_letter c || is_char "'" c.

(** [re.findall] of a class repeated with [+]: the maximal runs *)
Fixpoint runs_of (p : ascii -> bool) (cur : list ascii) (l : list ascii)
    : list string :=
  match l with
  | [] => match cur with [] => [] | _ => [str (rev cur)] end
  | c :: l' =>
      if p c then runs_of p (c :: cur) l'
      else match cur with
           | [] => runs_of p [] l'
           | _ => str (rev cur) :: runs_of p [] l'
           end
  end.

(** The phrases of [length] consecutive tokens, left to right *)
Definition phrases_of (tokens : list string) (length : nat) : list string :=
  map (fun i => py_join " " (take length (drop i tokens)))
      (seq 0 (List.length tokens - length + 1)).

(** The loop over the candidate phrases. *)
Fixpoint guess_loop (c : cursor) (candidates : list string) (tried : gset string)
    : pyval * cursor :=
  match candidates with
  | [] => (PNone, c)
  | phrase :: candidates' =>
      let key := py_lower phrase in
      if bool_decide (key ∈ tried) then guess_loop c candidates' tried
      else
        let '(tournament, c) := find_best_tournament c (Some phrase) in
        if truthy tournament then (tournament, c)
        else guess_loop c candidates' ({[key]} ∪ tried)
  end.

Definition guess_candidates (text : string) (exclude : list string) : list string :=
  let exclude_set :=
    map (fun s => py_lower (py_strip s)) (List.filter nonempty exclude) in
  let tokens := runs_of is_name_char [] (chars text) in
  let tokens := List.filter (fun t => bool_decide (3 <= String.length t)%nat) tokens in
  let max_len := Nat.min 3 (List.length tokens) in
  List.filter (fun phrase => negb (in_words exclude_set (py_lower phrase)))
    (flat_map (phrases_of tokens) (rev (seq 1 max_len))).

Definition guess_tournament_from_text (c : cursor) (text : string)
    (exclude : option (list string)) : pyval * cursor :=
  if negb (nonempty text) then (PNone, c)
  else guess_loop c (guess_candidates text (default [] exclude)) ∅.

(** [ActionMatchResult._candidate_aliases]: [add] and the calls *)
Definition add_alias (alias : string) (st : list string * gset string)
    : list string * gset string :=
  if negb (nonempty alias) then st else
  let candidate := py_strip alias in
  if bool_decide (String.length candidate < 2)%nat then st else
  let key := py_lower candidate in
  if bool_decide (key ∈ st.2) then st
  else ((st.1 ++ [candidate])%list, {[key]} ∪ st.2).

Definition _candidate_aliases (raw_text : string) : list string :=
  let st := add_alias (py_strip raw_text) ([], ∅) in
  let st := add_alias (_clean_player_fragment raw_text true) st in
  let st := add_alias (_clean_player_fragment raw_text false) st in
  let tokens := _tokenize raw_text in
  let st :=
    if is_nil tokens then st
    else
      let st :=
        if bool_decide (2 <= List.length tokens)%nat
        then add_alias (py_join " " (take 2 tokens))
               (add_alias (py_join " " (drop (List.length tokens - 2) tokens)) st)
        else st in
      add_alias (default "" (head tokens))
        (add_alias (default "" (last tokens)) st) in
  st.1.

(** An event of the tracker's log: its [event] and [name] attributes
    ([None] when absent). *)
Record log_event := {
  e_event : pyval;
  e_name : pyval;
}.

(** The index of the last ["user"] event ([enumerate] loop). *)
Fixpoint last_user_index (events : list log_event) (idx : nat) (found : option nat)
    : option nat :=
  match events with
  | [] => found
  | e :: events' =>
      last_user_index events' (S idx)
        (if eq_str (e_event e) "user" then Some idx else found)
  end.

Definition action_ran_after_latest_user (events : option (list log_event))
    (action_name : string) : bool :=
  match events with
  | None | Some [] => false
  | Some events =>
      match last_user_index events 0 None with
      | None => false
      | Some i =>
          if Nat.eqb i (List.length events - 1) then false
          else existsb (fun e => eq_str (e_event e) "action"
                                 && eq_str (e_name e) action_name)
                 (drop (i + 1) events)
      end
  end.

Definition IGNORED_ACTIONS : list string :=
  [ "action_listen"; "action_apply_filters"; "action_default_fallback";
    "action_reset_slots"; "action_session_start"; "action_extract_slots" ].


(** [s.startswith(p)] *)
Definition starts_with (p s : string) : bool := is_prefix (chars p) (chars s).

(** [for event in reversed(events)] of [_get_last_relevant_action], on
    the reversed list *)
Fixpoint last_relevant_loop (events : list log_event) : res pyval :=
  match events with
  | [] => Ok PNone
  | e :: events' =>
      if negb (eq_str (e_event e) "action") then last_relevant_loop events'
      else
        match py_or (e_name e) (PStr "") with
        | PStr name =>
            if in_words IGNORED_ACTIONS name || starts_with "utter_" name
            then last_relevant_loop events'
            else Ok (PStr name)
        | _ => Raise AttributeError
        end
  end.

Definition _get_last_relevant_action (events : option (list log_event))
    : res pyval :=
  last_relevant_loop (rev (default [] events)).


(** ** Vocabulary of the further properties *)

(** The positions a tuple signature reads, and their column names. *)
Definition SIGNATURE_OFFSETS : list nat := [1; 5; 6; 7; 8; 11; 13]%nat.

Definition SIGNATURE_COLUMNS : list string :=
  [ "tourney_name"; "tourney_date"; "match_num"; "winner_id"; "loser_id";
    "score"; "round" ].

(** A value [(v or "").strip()] accepts: falsy, or a [str]. *)
Definition strippable (v : pyval) : bool :=
  negb (truthy v) || match v with PStr _ => true | _ => false end.

Definition text_columns_strippable (d : dict_row) : bool :=
  strippable (dict_get (fields d) "tourney_name")
  && strippable (dict_get (fields d) "round")
  && strippable (dict_get (fields d) "score").

(** The statements of the three resolution tiers for a trimmed query, in
    the order [validate_and_find_player] issues them. *)
Definition player_tiers (clean : string) : list (string * list pyval) :=
  [ (PLAYER_EXACT_SQL, [PStr clean]);
    (PLAYER_PREFIX_SQL, [PStr (clean ++ "%")]);
    (PLAYER_SUBSTRING_SQL, [PStr ("%" ++ clean ++ "%")]) ].

(** The statements of [find_best_tournament] for a trimmed candidate. *)
Definition tournament_tiers (clean : string) : list (string * list pyval) :=
  [ (TOURNEY_EXACT_SQL, [PStr clean]);
    (TOURNEY_LIKE_SQL, [PStr ("%" ++ clean ++ "%")]);
    (TOURNEY_LIKE_SQL, [PStr ("%" ++ py_join "%" (py_split clean) ++ "%")]) ].

(** A four-character year: "19" or "20" and two decimal digits. *)
Definition is_year_string (s : string) : bool :=
  match chars s with
  | [c1; c2; c3; c4] =>
      ((is_char "1" c1 && is_char "9" c2) || (is_char "2" c1 && is_char "0" c2))
      && is_decimal_char c3 && is_decimal_char c4
  | _ => false
  end.

Definition valid_year (v : pyval) : Prop :=
  v = PNone \/ exists s, v = PStr s /\ is_year_string s = true.

(** The same tracker over another slot memory. *)
Definition with_slots (t : tracker) (sl : gmap string pyval) : tracker :=
  {| latest_message := latest_message t; slots := sl |}.

(** An event that sets a slot to a value other than [None]. *)
Definition sets_value (e : event) : Prop :=
  match e with
  | SlotSet _ v => v <> PNone
  | FollowupAction _ => False
  end.

(** The characters a token can hold: a letter, an apostrophe, a hyphen. *)
Definition token_char (c : ascii) : bool :=
  is_latin_letter c || is_char "'" c || is_char "-" c.

(** A token as [_tokenize] hands it on. *)
Definition token_ok (tok : string) : Prop :=
  nonempty tok = true
  /\ forallb token_char (chars tok) = true
  /\ keeps_token tok = true.

(** An alias as [_candidate_aliases] stores it: trimmed, two characters
    or more. *)
Definition alias_ok (a : string) : Prop :=
  (2 <= String.length a)%nat /\ py_strip a = a.

(** The matches and the wins of a breakdown, summed over its keys. *)
Definition tally_totals (m : gmap string (Z * Z)) : Z * Z :=
  map_fold (fun _ e acc => (e.1 + acc.1, e.2 + acc.2)%Z) (0, 0)%Z m.

(** Two contests of player 105173: a final won and a final lost. *)
Definition sample_player_rows : list (gmap string pyval) :=
  [ fields (as_dict (sample_match 1201 "105173" "100644"));
    fields (as_dict (sample_match 1150 "104925" "105173")) ].

(** A date argument as its type allows it: a string, or [None]. *)
Definition date_arg (d : option string) : pyval := from_option PStr PNone d.

Definition is_user (e : log_event) : bool := eq_str (e_event e) "user".

Definition is_action_named (action_name : string) (e : log_event) : bool :=
  eq_str (e_event e) "action" && eq_str (e_name e) action_name.



(** [get_match_display_info]: nothing for a row that is absent or has
    fewer than 34 cells; the unpacking of the tuple raises ValueError on
    more than 34. *)
Definition get_match_display_info (match_row : option (list pyval)) (c : cursor)
    : res (gmap string pyval) * cursor :=
  match match_row with
  | None => (Ok ∅, c)
  | Some r =>
      if is_nil r || bool_decide (length r < 34)%nat then (Ok ∅, c)
      else if bool_decide (34 < length r)%nat then (Raise ValueError, c)
      else
        let cell i := default PNone (r !! i) in
        let '(winner_name, c) := get_player_name_by_id (cell 7%nat) c in
        let '(loser_name, c) := get_player_name_by_id (cell 8%nat) c in
        let year :=
          if truthy (cell 5%nat) then slice 0 4 (py_str (cell 5%nat)) else "N/A" in
        (Ok (<["ongoing" := PBool (truthy (cell 33%nat))]>
             (<["minutes" := py_or (cell 14%nat) (PInt 0)]>
             (<["round" := cell 13%nat]>
             (<["score" := cell 11%nat]>
             (<["loser_id" := cell 8%nat]>
             (<["winner_id" := cell 7%nat]>
             (<["loser" := loser_name]>
             (<["winner" := winner_name]>
             (<["year" := PStr year]>
             (<["date" := PStr (format_tournament_date (cell 5%nat))]>
             (<["level" := cell 4%nat]>
             (<["surface" := cell 2%nat]>
             (<["tournament" := cell 1%nat]>
             (<["match_id" := cell 0%nat]> ∅)))))))))))))),
         c)
  end.

(** The name lookup issued for a player id, if any. *)
Definition name_lookup (player_id : pyval) : list (string * list pyval) :=
  if truthy player_id then [(PLAYER_NAME_SQL, [player_id])] else [].

(** The events of [ActionPlayerStats.run] when no match satisfies the
    filters. *)
Definition stats_zero_result_events (ctx : FilterContext) (canonical_name : pyval)
    : list event :=
  ([SlotSet "player_name" canonical_name]
   ++ (if explicit_year ctx || truthy (year ctx) || truthy (slot_year ctx)
       then [SlotSet "year" PNone] else [])
   ++ (if explicit_surface ctx || truthy (surface ctx) || truthy (slot_surface ctx)
       then [SlotSet "surface" PNone] else [])
   ++ (if explicit_tournament ctx || truthy (tournament ctx)
          || truthy (slot_tournament ctx)
       then [SlotSet "tournament_name" PNone] else [])
   ++ [SlotSet LAST_CONTEXT_SLOT PNone; FollowupAction "action_listen"])%list.

(** An event that keeps the player, clears a slot, or goes back to
    listening. *)
Definition clears_or_keeps_player (e : event) : Prop :=
  match e with
  | SlotSet k v => k = "player_name" \/ v = PNone
  | FollowupAction n => n = "action_listen"
  end.
(** * Properties *)

Open Scope list_scope.

(** ** Signature codec *)

Section signature.

Lemma py_sorted_pair_swap (x y : string) :
  py_sorted [x; y] = py_sorted [y; x].
Proof.
  unfold py_sorted; simpl. unfold String.ltb.
  rewrite (String.compare_antisym x y).
  destruct (String.compare y x) eqn:E; simpl; try reflexivity.
  apply String.compare_eq_iff in E. by subst.
Qed.

Lemma tuple_item_with_participants_ne (t : list pyval) a b (i : nat) :
  i <> 7%nat -> i <> 8%nat ->
  tuple_item (<[7%nat := a]> (<[8%nat := b]> t)) i = tuple_item t i.
Proof.
  intros H7 H8. unfold tuple_item.
  rewrite list_lookup_insert_ne by done.
  by rewrite list_lookup_insert_ne by done.
Qed.

Lemma tuple_item_winner (t : list pyval) a b :
  (8 < length t)%nat ->
  tuple_item (<[7%nat := a]> (<[8%nat := b]> t)) 7 = Ok a.
Proof.
  intros Hl. unfold tuple_item.
  rewrite list_lookup_insert_eq; [done|]. rewrite length_insert. lia.
Qed.

Lemma tuple_item_loser (t : list pyval) a b :
  (8 < length t)%nat ->
  tuple_item (<[7%nat := a]> (<[8%nat := b]> t)) 8 = Ok b.
Proof.
  intros Hl. unfold tuple_item.
  rewrite list_lookup_insert_ne by done.
  by rewrite list_lookup_insert_eq.
Qed.

Lemma dict_get_with_participants_ne (f : gmap string pyval) a b k :
  k <> "winner_id" -> k <> "loser_id" ->
  dict_get (<["winner_id" := a]> (<["loser_id" := b]> f)) k = dict_get f k.
Proof.
  intros Hw Hl. unfold dict_get.
  rewrite lookup_insert_ne by done.
  by rewrite lookup_insert_ne by done.
Qed.

Lemma dict_get_winner (f : gmap string pyval) a b :
  dict_get (<["winner_id" := a]> (<["loser_id" := b]> f)) "winner_id" = a.
Proof. unfold dict_get. by rewrite lookup_insert_eq. Qed.

Lemma dict_get_loser (f : gmap string pyval) a b :
  dict_get (<["winner_id" := a]> (<["loser_id" := b]> f)) "loser_id" = b.
Proof.
  unfold dict_get. rewrite lookup_insert_ne by done.
  by rewrite lookup_insert_eq.
Qed.

(** C1. Signature symmetry: a match record with winner [a] and loser
    [b] and the same record with winner [b] and loser [a] have the same
    signature (both calls return the same key, or raise alike). *)
Theorem signature_symmetry (r : row) (a b : pyval) :
  has_participants r ->
  make_match_signature (with_participants r a b)
  = make_match_signature (with_participants r b a).
Proof.
  destruct r as [d|t]; intros Hp;
    unfold make_match_signature, with_participants; cbn [fields raw].
  - rewrite !dict_get_winner, !dict_get_loser.
    rewrite !dict_get_with_participants_ne by done.
    by rewrite (py_sorted_pair_swap (py_str (py_or a (PStr "")))).
  - simpl in Hp. rewrite !length_insert.
    rewrite !tuple_item_winner, !tuple_item_loser by done.
    rewrite !tuple_item_with_participants_ne by done.
    rewrite (bool_decide_eq_true_2 (7 < length t)%nat) by lia.
    rewrite (bool_decide_eq_true_2 (8 < length t)%nat) by lia.
    repeat match goal with
           | |- bind ?m _ = bind ?m _ => destruct m; cbn [bind]; [|reflexivity]
           end.
    by rewrite (py_sorted_pair_swap (py_str (py_or a (PStr "")))).
Qed.

End signature.

(** The symmetry at a full row of the table, with two player ids. *)
Lemma signature_symmetry_witness :
  has_participants (RTuple (sample_match 1201 "105173" "100644"))
  /\ make_match_signature
       (with_participants (RTuple (sample_match 1201 "105173" "100644"))
          (PStr "105173") (PStr "100644"))
     = make_match_signature
         (with_participants (RTuple (sample_match 1201 "105173" "100644"))
            (PStr "100644") (PStr "105173")).
Proof.
  split; [simpl; lia | apply signature_symmetry; simpl; lia].
Defined.

(** The key of the sample row: lower-cased names, sorted participants. *)
Example sample_signature :
  tuple_signature (sample_match 1201 "105173" "100644")
  = Ok ("20251001", "shanghai masters", "f", ["100644"; "105173"], "300",
        "6-4 7-6(3)").
Proof. vm_compute. reflexivity. Qed.

Section dual_path.

Lemma foldl_put_notin (ks : list string) (vs : list pyval) m k :
  k ∉ ks -> foldl dict_put m (zip ks vs) !! k = m !! k.
Proof.
  revert vs m. induction ks as [|k0 ks IH]; intros [|v vs] m Hk; simpl; try done.
  apply not_elem_of_cons in Hk as [Hne Hk].
  rewrite IH by done. unfold dict_put; simpl. by rewrite lookup_insert_ne.
Qed.

Lemma foldl_put_lookup (ks : list string) (vs : list pyval) m i k :
  NoDup ks -> ks !! i = Some k -> (i < length vs)%nat ->
  foldl dict_put m (zip ks vs) !! k = vs !! i.
Proof.
  revert vs m i. induction ks as [|k0 ks IH]; intros vs m i Hnd Hi Hl; [done|].
  destruct vs as [|v vs]; [simpl in Hl; lia|].
  apply NoDup_cons in Hnd as [Hk0 Hnd].
  destruct i as [|i]; simpl in *.
  - injection Hi as ->. rewrite foldl_put_notin by done.
    unfold dict_put; simpl. by rewrite lookup_insert_eq.
  - apply IH; [done|done|lia].
Qed.

Lemma foldl_put_short (ks : list string) (vs : list pyval) i k :
  NoDup ks -> ks !! i = Some k -> (length vs <= i)%nat ->
  foldl dict_put ∅ (zip ks vs) !! k = None.
Proof.
  intros Hnd Hi Hl.
  assert (Hzip : zip ks vs = zip (take (length vs) ks) vs).
  { clear. revert vs. induction ks as [|k0 ks IH]; intros [|v vs]; simpl; try done.
    by rewrite <- IH. }
  rewrite Hzip. rewrite foldl_put_notin; [done|].
  intros Hin. apply list_elem_of_lookup in Hin as [j Hj].
  apply lookup_take_Some in Hj as [Hj Hlt].
  assert (i = j) by (eapply NoDup_lookup; eauto). lia.
Qed.

(** A column read by name is the cell at the column's position. *)
Lemma dict_zip_get (ks : list string) (vs : list pyval) i k :
  NoDup ks -> ks !! i = Some k ->
  dict_get (dict_zip ks vs) k = default PNone (vs !! i).
Proof.
  intros Hnd Hi. unfold dict_get, dict_zip.
  destruct (decide (i < length vs)%nat) as [Hl|Hl].
  - by rewrite (foldl_put_lookup ks vs ∅ i k).
  - rewrite (foldl_put_short ks vs i k) by (done || lia).
    by rewrite lookup_ge_None_2 by lia.
Qed.

Lemma MATCHES_COLUMNS_NoDup : NoDup MATCHES_COLUMNS.
Proof. compute_done. Qed.

Lemma tuple_item_guarded (t : list pyval) (i : nat) :
  (if bool_decide (i < length t)%nat then tuple_item t i else Ok PNone)
  = Ok (default PNone (t !! i)).
Proof.
  unfold tuple_item. case_bool_decide as Hl.
  - apply lookup_lt_is_Some_2 in Hl as [v ->]. done.
  - by rewrite lookup_ge_None_2 by lia.
Qed.

Lemma tuple_item_guarded_bind {B} (t : list pyval) (i : nat)
    (f : pyval -> res B) (dflt : res B) :
  f PNone = dflt ->
  (if bool_decide (i < length t)%nat
   then do v <- tuple_item t i; f v
   else dflt)
  = f (default PNone (t !! i)).
Proof.
  intros Hf. unfold tuple_item. case_bool_decide as Hl.
  - apply lookup_lt_is_Some_2 in Hl as [v ->]. done.
  - by rewrite lookup_ge_None_2 by lia.
Qed.

(** The two extraction paths agree on every tuple, whatever its
    length: a column beyond the end of the tuple reads as [None] by
    name and takes the default by position. *)
Lemma signature_paths_agree (t : list pyval) (r : option (list pyval)) :
  make_match_signature (RDict {| fields := dict_zip MATCHES_COLUMNS t; raw := r |})
  = make_match_signature (RTuple t).
Proof.
  unfold make_match_signature; cbn [fields].
  rewrite !tuple_item_guarded.
  rewrite !(tuple_item_guarded_bind t _ _ _) by reflexivity.
  rewrite (dict_zip_get _ t 5 "tourney_date") by (apply MATCHES_COLUMNS_NoDup || done).
  rewrite (dict_zip_get _ t 1 "tourney_name") by (apply MATCHES_COLUMNS_NoDup || done).
  rewrite (dict_zip_get _ t 13 "round") by (apply MATCHES_COLUMNS_NoDup || done).
  rewrite (dict_zip_get _ t 6 "match_num") by (apply MATCHES_COLUMNS_NoDup || done).
  rewrite (dict_zip_get _ t 7 "winner_id") by (apply MATCHES_COLUMNS_NoDup || done).
  rewrite (dict_zip_get _ t 8 "loser_id") by (apply MATCHES_COLUMNS_NoDup || done).
  rewrite (dict_zip_get _ t 11 "score") by (apply MATCHES_COLUMNS_NoDup || done).
  reflexivity.
Qed.

(** C2. Dual-path equivalence: for a full row of the [matches] table,
    the signature of the row read as a dict keyed by the column names
    equals the signature of the same row read as a positional tuple. *)
Theorem signature_dual_path (t : list pyval) :
  length t = length MATCHES_COLUMNS ->
  make_match_signature
    (RDict {| fields := dict_zip MATCHES_COLUMNS t; raw := None |})
  = make_match_signature (RTuple t).
Proof. intros _. apply signature_paths_agree. Qed.

End dual_path.

Lemma signature_dual_path_witness :
  length (sample_match 1201 "105173" "100644") = length MATCHES_COLUMNS
  /\ make_match_signature
       (RDict {| fields := dict_zip MATCHES_COLUMNS (sample_match 1201 "105173" "100644");
                 raw := None |})
     = make_match_signature (RTuple (sample_match 1201 "105173" "100644")).
Proof.
  split; [reflexivity | apply signature_dual_path; reflexivity].
Defined.

(** ** Match deduplicator *)

Section dedup_facts.
Context {A K : Type} `{Countable K}.
Variable key : A -> res K.

Lemma dedup_loop_acc (rows : list A) (seen : gset K) (acc : list A) :
  dedup_loop key rows seen acc
  = res_map (app acc) (dedup_loop key rows seen []).
Proof.
  revert seen acc. induction rows as [|r rows IH]; intros seen acc; simpl.
  - unfold res_map; simpl. by rewrite app_nil_r.
  - destruct (key r) as [k|e]; simpl; [|done].
    case_bool_decide; [apply IH|].
    rewrite (IH _ (acc ++ [r])), (IH _ [r]).
    destruct (dedup_loop key rows ({[k]} ∪ seen) []); unfold res_map; simpl; [|done].
    by rewrite <- app_assoc.
Qed.

(** The loop, unfolded one row at a time. *)
Lemma dedup_loop_cons (r : A) (rows : list A) (seen : gset K) :
  dedup_loop key (r :: rows) seen []
  = do k <- key r;
    if bool_decide (k ∈ seen) then dedup_loop key rows seen []
    else res_map (cons r) (dedup_loop key rows ({[k]} ∪ seen) []).
Proof.
  simpl. destruct (key r) as [k|e]; simpl; [|done].
  case_bool_decide; [done|]. by rewrite dedup_loop_acc.
Qed.

Lemma dedup_loop_total (rows : list A) (seen : gset K) :
  Forall (fun r => is_ok (key r)) rows ->
  is_ok (dedup_loop key rows seen []).
Proof.
  intros Hok. revert seen. induction Hok as [|r rows [k Hk] _ IH]; intros seen.
  - by exists [].
  - rewrite dedup_loop_cons, Hk; simpl.
    case_bool_decide; [apply IH|].
    destruct (IH ({[k]} ∪ seen)) as [out ->]. by exists (r :: out).
Qed.

Lemma dedup_loop_sublist (rows out : list A) (seen : gset K) :
  dedup_loop key rows seen [] = Ok out -> sublist out rows.
Proof.
  revert seen out. induction rows as [|r rows IH]; intros seen out.
  - simpl. intros [= <-]. constructor.
  - rewrite dedup_loop_cons. destruct (key r) as [k|e]; simpl; [|done].
    case_bool_decide.
    + intros Hd. apply sublist_cons, (IH _ _ Hd).
    + destruct (dedup_loop key rows ({[k]} ∪ seen) []) as [out'|] eqn:Hd;
        unfold res_map; simpl; [|done].
      intros [= <-]. apply sublist_skip, (IH _ _ Hd).
Qed.

(** Every key of the output is new with respect to [seen]. *)
Lemma dedup_loop_fresh (rows out : list A) (seen : gset K) (x : A) :
  dedup_loop key rows seen [] = Ok out -> x ∈ out ->
  exists k, key x = Ok k /\ k ∉ seen.
Proof.
  revert seen out. induction rows as [|r rows IH]; intros seen out.
  - simpl. intros [= <-] Hx. by apply elem_of_nil in Hx.
  - rewrite dedup_loop_cons. destruct (key r) as [k|e] eqn:Hk; simpl; [|done].
    case_bool_decide as Hseen.
    + apply IH.
    + destruct (dedup_loop key rows ({[k]} ∪ seen) []) as [out'|] eqn:Hd;
        unfold res_map; simpl; [|done].
      intros [= <-] Hx. apply elem_of_cons in Hx as [->|Hx]; [by exists k|].
      destruct (IH _ _ Hd Hx) as (k' & Hk' & Hnew).
      exists k'. split; [done|]. set_solver.
Qed.

Lemma dedup_loop_NoDup (rows out : list A) (seen : gset K) :
  dedup_loop key rows seen [] = Ok out -> NoDup (map key out).
Proof.
  revert seen out. induction rows as [|r rows IH]; intros seen out.
  - simpl. intros [= <-]. constructor.
  - rewrite dedup_loop_cons. destruct (key r) as [k|e] eqn:Hk; simpl; [|done].
    case_bool_decide as Hseen.
    + apply IH.
    + destruct (dedup_loop key rows ({[k]} ∪ seen) []) as [out'|] eqn:Hd;
        unfold res_map; simpl; [|done].
      intros [= <-]. simpl. apply NoDup_cons. split; [|by eapply IH].
      intros Hin. apply list_elem_of_fmap in Hin as (x & Hx & Hin).
      destruct (dedup_loop_fresh _ _ _ _ Hd Hin) as (k' & Hk' & Hnew).
      rewrite Hk in Hx. rewrite Hk' in Hx. injection Hx as ->. set_solver.
Qed.

(** For a key outside [seen], the output and the input have the same
    first row with that key. *)
Lemma dedup_loop_first (rows out : list A) (seen : gset K) (k : K) :
  dedup_loop key rows seen [] = Ok out -> k ∉ seen ->
  first_with key k out = first_with key k rows.
Proof.
  unfold first_with.
  revert seen out. induction rows as [|r rows IH]; intros seen out.
  - simpl. by intros [= <-].
  - rewrite dedup_loop_cons. destruct (key r) as [k0|e] eqn:Hk; simpl; [|done].
    rewrite Hk. case_bool_decide as Hseen.
    + intros Hd Hnew. case_bool_decide as Heq.
      * congruence.
      * by eapply IH.
    + destruct (dedup_loop key rows ({[k0]} ∪ seen) []) as [out'|] eqn:Hd;
        unfold res_map; simpl; [|done].
      intros [= <-] Hnew. simpl. rewrite Hk.
      destruct (decide (Ok k0 = Ok k)) as [Heq|Hne].
      * by rewrite !bool_decide_eq_true_2.
      * rewrite !bool_decide_eq_false_2 by done.
        eapply IH; [done|].
        intros [Hin|Hin]%elem_of_union; [|done].
        apply elem_of_singleton in Hin. by subst.
Qed.

(** A key of [seen] has no row in the output. *)
Lemma dedup_loop_seen (rows out : list A) (seen : gset K) (k : K) :
  dedup_loop key rows seen [] = Ok out -> k ∈ seen ->
  first_with key k out = None.
Proof.
  intros Hd Hk. unfold first_with.
  destruct (find _ out) as [x|] eqn:Hf; [|done].
  apply find_some in Hf as [Hin Hx].
  apply bool_decide_eq_true in Hx.
  apply list_elem_of_In in Hin.
  destruct (dedup_loop_fresh _ _ _ _ Hd Hin) as (k' & Hk' & Hnew).
  congruence.
Qed.

Lemma dedup_loop_fixed (rows out : list A) (seen : gset K) :
  dedup_loop key rows seen [] = Ok out ->
  dedup_loop key out seen [] = Ok out.
Proof.
  revert seen out. induction rows as [|r rows IH]; intros seen out.
  - simpl. by intros [= <-].
  - rewrite dedup_loop_cons. destruct (key r) as [k|e] eqn:Hk; simpl; [|done].
    case_bool_decide as Hseen.
    + apply IH.
    + destruct (dedup_loop key rows ({[k]} ∪ seen) []) as [out'|] eqn:Hd;
        unfold res_map; simpl; [|done].
      intros [= <-]. rewrite dedup_loop_cons, Hk; simpl.
      rewrite bool_decide_eq_false_2 by done.
      by rewrite (IH _ _ Hd).
Qed.

End dedup_facts.

(** C3. Dedup idempotence and stability: deduplicating twice is
    deduplicating once; the call returns whenever every row has a
    signature; and its output is a subsequence of the input with pairwise
    distinct signatures in which, for every signature, the first row with
    that signature is the first such row of the input, unchanged. *)
Theorem dedupe_idempotent_first_occurrence (rows : list dict_row) :
  bind (deduplicate_matches rows) deduplicate_matches = deduplicate_matches rows
  /\ (Forall (fun r => is_ok (dict_signature r)) rows ->
      is_ok (deduplicate_matches rows))
  /\ forall out, deduplicate_matches rows = Ok out ->
       sublist out rows
       /\ NoDup (map dict_signature out)
       /\ forall s, first_with dict_signature s out = first_with dict_signature s rows.
Proof.
  unfold deduplicate_matches. split; [|split].
  - destruct (dedup_loop dict_signature rows ∅ []) as [out|e] eqn:Hd; simpl; [|done].
    by apply dedup_loop_fixed in Hd.
  - apply dedup_loop_total.
  - intros out Hd. split; [|split].
    + by eapply dedup_loop_sublist.
    + by eapply dedup_loop_NoDup.
    + intros s. eapply dedup_loop_first; [done|]. set_solver.
Qed.

(** On the sample rows every signature exists, so the call returns. *)
Lemma dedupe_idempotent_first_occurrence_witness :
  Forall (fun r => is_ok (dict_signature r)) sample_rows
  /\ is_ok (deduplicate_matches sample_rows).
Proof.
  assert (Hok : Forall (fun r => is_ok (dict_signature r)) sample_rows).
  { repeat constructor; eexists; vm_compute; reflexivity. }
  split; [exact Hok|].
  exact (proj1 (proj2 (dedupe_idempotent_first_occurrence sample_rows)) Hok).
Defined.

(** The second sample row repeats the first and is dropped. *)
Example dedupe_sample :
  deduplicate_matches sample_rows
  = Ok [ as_dict (sample_match 1201 "105173" "100644");
         as_dict (sample_match 1150 "104925" "100644") ].
Proof. vm_compute. reflexivity. Qed.

(** ** Filter context builder *)

(** The merge of one filter, read off the built context. *)
Lemma build_year (t : tracker) :
  let c := build_filter_context t in
  year c = (if eq_str (intent_name c) "inform_filters"
            then py_or (message_year c) (slot_year c)
            else message_year c)
  /\ explicit_year c = is_not_none (message_year c)
  /\ slot_year c = get_slot t "year".
Proof.
  unfold build_filter_context; cbn [year explicit_year message_year slot_year intent_name].
  split; [reflexivity|split; [|reflexivity]].
  match goal with |- (if ?b then _ else _) = _ => destruct b; reflexivity end.
Qed.

Lemma build_intent_name (i : string) txt ents sl :
  intent_name (build_filter_context (tracker_of i txt ents sl)) = PStr i.
Proof.
  unfold build_filter_context, tracker_of;
    cbn [intent_name latest_message default from_option id m_intent].
  unfold dict_get. rewrite lookup_singleton_eq. cbn [default from_option id].
  unfold py_or; simpl. by destruct (String.eqb_spec i "") as [->|].
Qed.

(** The message-derived year does not depend on the intent. *)
Lemma build_message_year (i j : string) txt ents sl :
  message_year (build_filter_context (tracker_of i txt ents sl))
  = message_year (build_filter_context (tracker_of j txt ents sl)).
Proof. reflexivity. Qed.

(** C5. Explicit-vs-remembered merge: when the message carries no year
    and the slot memory holds year "2022", the context built under the
    informing-filters intent has effective year "2022" and
    [explicit_year = false]; built under any other intent it has
    effective year [None] and [explicit_year = false]. *)
Theorem explicit_vs_remembered_year (other : string) (txt : option string)
    (ents : option (list (gmap string pyval))) (sl : gmap string pyval) :
  other <> "inform_filters" ->
  message_year (build_filter_context (tracker_of other txt ents sl)) = PNone ->
  sl !! "year" = Some (PStr "2022") ->
  let informing := build_filter_context (tracker_of "inform_filters" txt ents sl) in
  let fresh := build_filter_context (tracker_of other txt ents sl) in
  year informing = PStr "2022" /\ explicit_year informing = false
  /\ year fresh = PNone /\ explicit_year fresh = false.
Proof.
  intros Hother Hmsg Hslot informing fresh.
  destruct (build_year (tracker_of "inform_filters" txt ents sl)) as (Hy & He & Hs).
  destruct (build_year (tracker_of other txt ents sl)) as (Hy' & He' & _).
  fold informing in Hy, He, Hs. fold fresh in Hy', He'.
  assert (Hmsg' : message_year informing = PNone).
  { unfold informing. by rewrite (build_message_year _ other). }
  fold fresh in Hmsg.
  rewrite Hy, He, Hy', He', Hs, Hmsg, Hmsg'.
  unfold informing, fresh. rewrite !build_intent_name.
  unfold get_slot, dict_get, tracker_of; cbn [slots]. rewrite Hslot.
  cbn [eq_str default from_option id]. rewrite String.eqb_refl.
  apply String.eqb_neq in Hother. rewrite Hother. by cbn.
Qed.

(** The follow-up "su terra" after a question filtered on 2022. *)
Lemma explicit_vs_remembered_year_witness :
  let sl : gmap string pyval := {[ "year" := PStr "2022" ]} in
  let informing :=
    build_filter_context (tracker_of "inform_filters" (Some "su terra") (Some []) sl) in
  let fresh :=
    build_filter_context (tracker_of "player_stats" (Some "su terra") (Some []) sl) in
  year informing = PStr "2022" /\ explicit_year informing = false
  /\ year fresh = PNone /\ explicit_year fresh = false.
Proof.
  apply (explicit_vs_remembered_year "player_stats" (Some "su terra") (Some [])
           {[ "year" := PStr "2022" ]}).
  - discriminate.
  - vm_compute. reflexivity.
  - vm_compute. reflexivity.
Defined.

(** A year in the message wins over the slot and is explicit. *)
Example explicit_year_in_message :
  let c := build_filter_context
             (tracker_of "inform_filters" (Some "nel 2023 su erba") None
                {[ "year" := PStr "2022" ]}) in
  year c = PStr "2023" /\ explicit_year c = true /\ surface c = PStr "Grass".
Proof. vm_compute. repeat split; reflexivity. Qed.

(** ** Fuzzy name resolver *)

(** C6. Short-query rejection: a query that is [None] or whose trimmed
    length is below 2 resolves to [(None, None)] and leaves the cursor as
    it was: no statement is issued. *)
Theorem short_query_rejected (player_name : option string) (c : cursor) :
  (forall s, player_name = Some s -> (String.length (py_strip s) < 2)%nat) ->
  validate_and_find_player player_name c = (Ok (PNone, PNone), c).
Proof.
  intros Hshort. unfold validate_and_find_player.
  destruct player_name as [s|]; [|reflexivity].
  rewrite (bool_decide_eq_true_2 _ (Hshort s eq_refl)).
  by rewrite orb_true_r.
Qed.

Lemma short_query_rejected_witness :
  validate_and_find_player (Some " S ") overlapping_cursor
  = (Ok (PNone, PNone), overlapping_cursor).
Proof.
  apply short_query_rejected.
  intros s [= <-]. vm_compute. lia.
Defined.

(** A query of two characters does reach the database. *)
Example two_characters_query :
  issued (snd (validate_and_find_player (Some "Si") overlapping_cursor))
  = [(PLAYER_EXACT_SQL, [PStr "Si"])].
Proof. reflexivity. Qed.

(** ** Surface normalisation *)

Lemma SURFACE_KEYWORDS_values :
  Forall (fun kv => In (snd kv) VALID_SURFACE_CODES) SURFACE_KEYWORDS.
Proof.
  unfold SURFACE_KEYWORDS.
  repeat (apply List.Forall_cons; [cbn; auto 10|]). apply List.Forall_nil.
Qed.

Lemma first_keyword_valid (items : list (string * string)) (s : string) :
  Forall (fun kv => In (snd kv) VALID_SURFACE_CODES) items ->
  valid_surface (first_keyword items s).
Proof.
  induction 1 as [|[key value] items Hv _ IH]; simpl; [by left|].
  destruct (py_contains key s); [|exact IH].
  right. by exists value.
Qed.

Lemma extract_surface_valid (v : pyval) :
  valid_surface (extract_surface_from_text v).
Proof.
  unfold extract_surface_from_text.
  destruct (negb (truthy v)); [by left|].
  apply first_keyword_valid, SURFACE_KEYWORDS_values.
Qed.

Lemma normalize_surface_valid (v : pyval) :
  valid_surface (normalize_surface_value v).
Proof.
  unfold normalize_surface_value, assoc_get.
  destruct (negb (truthy v)); [by left|].
  destruct (find _ SURFACE_KEYWORDS) as [kv|] eqn:Hf; [|apply extract_surface_valid].
  apply find_some in Hf as [Hin _].
  right. exists (snd kv). split; [done|].
  pose proof SURFACE_KEYWORDS_values as Hall.
  rewrite List.Forall_forall in Hall. by apply Hall.
Qed.

(** C10. Closed surface codomain: [normalize_surface_value] and
    [extract_surface_from_text] return [None] or one of the surface codes
    "Hard", "Grass", "Clay", "Carpet" on every input, and so the
    message-derived surface of every filter context is [None] or a valid
    surface code. *)
Theorem surface_codomain_closed (v : pyval) (t : tracker) :
  valid_surface (normalize_surface_value v)
  /\ valid_surface (extract_surface_from_text v)
  /\ valid_surface (message_surface (build_filter_context t)).
Proof.
  split; [apply normalize_surface_valid|].
  split; [apply extract_surface_valid|].
  unfold build_filter_context; cbn [message_surface].
  destruct (entity_values "surface" _);
    [apply extract_surface_valid | apply normalize_surface_valid].
Qed.

(** The keys are scanned in the order of the dictionary, and an exact
    synonym is looked up before the scan. *)
Example surface_examples :
  normalize_surface_value (PStr "Terra Battuta") = PStr "Clay"
  /\ normalize_surface_value (PStr "sull'erba") = PStr "Grass"
  /\ normalize_surface_value (PStr "sabbia") = PNone
  /\ extract_surface_from_text (PStr "cemento o erba?") = PStr "Grass".
Proof. vm_compute. repeat split; reflexivity. Qed.

(** ** Heuristic text extractor *)

Lemma tokenize_loop_spec (tokens result : list string) :
  tokenize_loop tokens result
  = if is_nil result
    then drop_while is_filler (List.filter keeps_token tokens)
    else result ++ List.filter keeps_token tokens.
Proof.
  revert result. induction tokens as [|tok tokens IH]; intros result.
  - simpl. destruct result; simpl; [done|]. by rewrite app_nil_r.
  - cbn [tokenize_loop]. rewrite !IH.
    change (List.filter keeps_token (tok :: tokens))
      with (if keeps_token tok then tok :: List.filter keeps_token tokens
            else List.filter keeps_token tokens).
    set (kept := List.filter keeps_token tokens).
    unfold keeps_token.
    destruct (in_words CONNECTORS (py_lower tok)); cbn [negb andb]; [done|].
    destruct (py_isdigit tok); cbn [negb]; [done|].
    destruct result as [|r result]; cbn [is_nil andb app drop_while].
    + change (is_filler tok) with (in_words _PREFIX_FILLERS (py_lower tok)).
      by destruct (in_words _PREFIX_FILLERS (py_lower tok)).
    + by rewrite <- app_assoc.
Qed.

(** C7 (amended). Tokenizer leading-filler rule: tokenization replaces
    every character that is not a letter, an apostrophe, a hyphen or a
    space by a space, splits on white space, drops the connector words and
    the pure-numeric tokens, and drops every filler token that comes
    before the first token kept; fillers after it are kept. *)
Theorem tokenize_drops_leading_fillers (text : string) :
  _tokenize text
  = drop_while is_filler
      (List.filter keeps_token
         (List.filter nonempty (py_split (sub_non_letters text)))).
Proof. unfold _tokenize. cbv zeta. by rewrite tokenize_loop_spec. Qed.

(** C7 as stated fails: of two leading fillers the second is dropped
    too, where the rule of a single dropped filler keeps it. *)
Lemma tokenize_second_filler_dropped :
  _tokenize "il la Sinner" = ["Sinner"]
  /\ tokenize_one_filler "il la Sinner" = ["la"; "Sinner"]
  /\ ~ (forall text, _tokenize text = tokenize_one_filler text).
Proof.
  assert (H1 : _tokenize "il la Sinner" = ["Sinner"]) by (vm_compute; reflexivity).
  assert (H2 : tokenize_one_filler "il la Sinner" = ["la"; "Sinner"])
    by (vm_compute; reflexivity).
  split; [exact H1|]. split; [exact H2|].
  intros Hall. specialize (Hall "il la Sinner"). rewrite H1, H2 in Hall.
  discriminate Hall.
Qed.

(** A filler after the first kept token stays. *)
Example tokenize_inner_filler :
  _tokenize "Sinner il 2023 vs la Alcaraz" = ["Sinner"; "il"; "la"; "Alcaraz"].
Proof. vm_compute. reflexivity. Qed.

(** C9. Extractor example: from "Rinderknech vs Zverev a Shanghai 2025"
    the pair extractor returns exactly "Rinderknech" and "Zverev", and
    none of the trailing filter words "a", "Shanghai", "2025" is a word
    of either name. *)
Theorem extractor_example :
  let names :=
    _extract_players_from_text (Some "Rinderknech vs Zverev a Shanghai 2025") in
  names = ["Rinderknech"; "Zverev"]
  /\ Forall (fun name =>
               Forall (fun w => ~ In w (py_split name)) ["a"; "Shanghai"; "2025"])
            names.
Proof.
  assert (H : _extract_players_from_text (Some "Rinderknech vs Zverev a Shanghai 2025")
              = ["Rinderknech"; "Zverev"]) by (vm_compute; reflexivity).
  cbv zeta. rewrite H. split; [reflexivity|].
  repeat constructor; vm_compute; intros [Hw|[]]; discriminate Hw.
Qed.

(** The two fragments the pattern hands to the cleaner. *)
Example extractor_fragments :
  option_map (fun m => (group 1 m, group 2 m))
    (re_search VERSUS_RE "Rinderknech vs Zverev a Shanghai 2025")
  = Some ("Rinderknech", "Zverev a Shanghai 2025").
Proof. vm_compute. reflexivity. Qed.

(** ** Statistics aggregator *)

Lemma bind_no_zero_division {A B} (m : res A) (f : A -> res B) :
  no_zero_division m ->
  (forall a, m = Ok a -> no_zero_division (f a)) ->
  no_zero_division (bind m f).
Proof.
  unfold no_zero_division. destruct m as [a|e]; simpl; intros Hm Hf; [by apply Hf|].
  congruence.
Qed.

Lemma dict_item_no_zero_division (d : gmap string pyval) k :
  no_zero_division (dict_item d k).
Proof. unfold no_zero_division, dict_item. by destruct (d !! k). Qed.

Lemma strip_method_no_zero_division (v : pyval) :
  no_zero_division (strip_method v).
Proof. unfold no_zero_division. by destruct v. Qed.

Lemma side_stat_no_zero_division (d : gmap string pyval) b w l :
  no_zero_division (side_stat d b w l).
Proof.
  unfold side_stat. apply bind_no_zero_division;
    [apply dict_item_no_zero_division | done].
Qed.

(** The guard and the denominator are the same number: the division
    runs only on a denominator that is not zero. *)
Lemma guarded_percent_ok (n d : Z) :
  exists q, guarded_percent n d d = Ok q /\ (d = 0%Z -> q = 0%Q).
Proof.
  unfold guarded_percent, percent, py_truediv.
  destruct (Z.eqb_spec d 0) as [->|Hd]; simpl; eauto.
  eexists. split; [reflexivity|]. done.
Qed.

Lemma aggregate_step_no_zero_division pid yf a mt :
  no_zero_division (aggregate_step pid yf a mt).
Proof.
  unfold aggregate_step.
  repeat (apply bind_no_zero_division;
          [ first [ apply dict_item_no_zero_division
                  | apply strip_method_no_zero_division
                  | apply side_stat_no_zero_division ]
          | intros ? _ ]).
  done.
Qed.

Lemma aggregate_loop_no_zero_division pid yf rows a :
  no_zero_division (aggregate_loop pid yf rows a).
Proof.
  revert a. induction rows as [|mt rows IH]; intros a; simpl; [done|].
  apply bind_no_zero_division; [apply aggregate_step_no_zero_division|].
  intros a' _. apply IH.
Qed.

Lemma count_wins_no_zero_division pid rows :
  no_zero_division (count_wins pid rows).
Proof.
  induction rows as [|mt rows IH]; simpl; [done|].
  apply bind_no_zero_division; [apply dict_item_no_zero_division|].
  intros w _. apply bind_no_zero_division; [apply IH|done].
Qed.

Lemma guarded_percent_no_zero_division (n d : Z) :
  no_zero_division (guarded_percent n d d).
Proof. destruct (guarded_percent_ok n d) as (q & -> & _). done. Qed.

Lemma aggregate_no_zero_division rows pid yf :
  no_zero_division (aggregate rows pid yf).
Proof.
  unfold aggregate.
  apply bind_no_zero_division; [apply count_wins_no_zero_division|intros wins _].
  apply bind_no_zero_division; [apply guarded_percent_no_zero_division|intros ? _].
  apply bind_no_zero_division; [apply aggregate_loop_no_zero_division|intros acc _].
  repeat (apply bind_no_zero_division;
          [apply guarded_percent_no_zero_division|intros ? _]).
  done.
Qed.

Lemma aggregate_total rows pid yf st :
  aggregate rows pid yf = Ok st -> total st = Z.of_nat (length rows).
Proof.
  unfold aggregate.
  repeat match goal with
         | |- bind ?m _ = _ -> _ => destruct m; cbn [bind]; [|discriminate]
         end.
  by intros [= <-].
Qed.

(** Each derived percentage is 0 when its denominator is 0. *)
Lemma aggregate_guards rows pid yf st :
  aggregate rows pid yf = Ok st ->
  (total st = 0%Z -> win_rate st = 0%Q)
  /\ (sum_svpt (sums st) = 0%Z -> first_in_pct st = 0%Q)
  /\ (sum_1st_in (sums st) = 0%Z -> first_won_pct st = 0%Q)
  /\ ((sum_svpt (sums st) - sum_1st_in (sums st))%Z = 0%Z -> second_won_pct st = 0%Q)
  /\ (sum_bp_faced (sums st) = 0%Z -> bp_saved_pct st = 0%Q).
Proof.
  unfold aggregate.
  destruct (count_wins _ _) as [wins|]; cbn [bind]; [|discriminate].
  destruct (guarded_percent_ok wins (Z.of_nat (length rows))) as (q0 & -> & H0).
  cbn [bind].
  destruct (aggregate_loop _ _ _ _) as [a|]; cbn [bind]; [|discriminate].
  destruct (guarded_percent_ok (sum_1st_in a) (sum_svpt a)) as (q1 & -> & H1).
  destruct (guarded_percent_ok (sum_1st_won a) (sum_1st_in a)) as (q2 & -> & H2).
  destruct (guarded_percent_ok (sum_2nd_won a) (sum_svpt a - sum_1st_in a))
    as (q3 & -> & H3).
  destruct (guarded_percent_ok (sum_bp_saved a) (sum_bp_faced a)) as (q4 & -> & H4).
  cbn [bind]. intros [= <-]. cbn. auto.
Qed.

(** [run] computes statistics on a list that is not empty, and on such
    a list only. *)
Lemma stats_report_none rows pid yf :
  stats_report rows pid yf = Ok None <-> rows = [].
Proof.
  unfold stats_report. destruct rows as [|mt rows]; [done|].
  destruct (Z.eqb_spec (Z.of_nat (length (mt :: rows))) 0) as [Hlen|_];
    [cbn [length] in Hlen; lia|].
  split; [|done].
  repeat match goal with
         | |- bind ?m _ = _ -> _ => destruct m; cbn [bind]; [|discriminate]
         end.
  discriminate.
Qed.

Lemma stats_report_some rows pid yf st ace_avg df_avg :
  stats_report rows pid yf = Ok (Some (st, ace_avg, df_avg)) ->
  aggregate rows pid yf = Ok st
  /\ (0 < total st)%Z
  /\ py_truediv (sum_aces (sums st)) (total st) = Ok ace_avg
  /\ py_truediv (sum_dfs (sums st)) (total st) = Ok df_avg.
Proof.
  unfold stats_report.
  destruct (Z.eqb_spec (Z.of_nat (length rows)) 0) as [|Hlen]; [discriminate|].
  destruct (aggregate rows pid yf) as [st'|] eqn:Hst; cbn [bind]; [|discriminate].
  destruct (py_truediv (sum_aces (sums st')) (total st')) as [q1|] eqn:H1;
    cbn [bind]; [|discriminate].
  destruct (py_truediv (sum_dfs (sums st')) (total st')) as [q2|] eqn:H2;
    cbn [bind]; [|discriminate].
  intros [= <- <- <-]. repeat split; try done.
  apply aggregate_total in Hst. lia.
Qed.

Lemma stats_report_no_zero_division rows pid yf :
  no_zero_division (stats_report rows pid yf).
Proof.
  unfold stats_report.
  destruct (Z.eqb_spec (Z.of_nat (length rows)) 0) as [|Hlen]; [done|].
  apply bind_no_zero_division; [apply aggregate_no_zero_division|].
  intros st Hst. apply aggregate_total in Hst.
  unfold py_truediv. rewrite Hst.
  destruct (Z.eqb_spec (Z.of_nat (length rows)) 0) as [|_]; [done|].
  done.
Qed.

(** C8 as stated fails: on the empty match list [run] returns before the
    statistics, so that there is no record with [total = 0] and
    [win_rate = 0.0]; and it is this return, not a guard, that keeps the
    per-match averages from dividing by the zero total. *)
Lemma empty_list_yields_no_statistics :
  stats_report [] (PStr "105173") PNone = Ok None
  /\ ~ (exists st ace_avg df_avg,
          stats_report [] (PStr "105173") PNone = Ok (Some (st, ace_avg, df_avg))
          /\ total st = 0%Z /\ win_rate st = 0%Q
          /\ first_in_pct st = 0%Q /\ first_won_pct st = 0%Q
          /\ second_won_pct st = 0%Q /\ bp_saved_pct st = 0%Q)
  /\ py_truediv (sum_aces counters_init) (Z.of_nat (length (@nil (gmap string pyval))))
     = Raise ZeroDivisionError.
Proof.
  split; [reflexivity|]. split; [|reflexivity].
  intros (st & ace_avg & df_avg & H & _). discriminate H.
Qed.

(** C8 (amended). Percentage guards: on an empty match list [run]
    computes no statistics at all, and on that list only; on every match
    list no division by zero is performed, in the statistics block and in
    what [run] computes with it, the per-match averages included; in the
    statistics block a rate or percentage whose denominator is 0 is 0.0;
    and the statistics [run] reports have a positive total, by which the
    two averages are divided. *)
Theorem percentage_guards_after_empty_return :
  (forall rows player_id year_filter,
     stats_report rows player_id year_filter = Ok None <-> rows = [])
  /\ (forall rows player_id year_filter,
        no_zero_division (aggregate rows player_id year_filter)
        /\ no_zero_division (stats_report rows player_id year_filter))
  /\ (forall rows player_id year_filter st,
        aggregate rows player_id year_filter = Ok st ->
        (total st = 0%Z -> win_rate st = 0%Q)
        /\ (sum_svpt (sums st) = 0%Z -> first_in_pct st = 0%Q)
        /\ (sum_1st_in (sums st) = 0%Z -> first_won_pct st = 0%Q)
        /\ ((sum_svpt (sums st) - sum_1st_in (sums st))%Z = 0%Z ->
            second_won_pct st = 0%Q)
        /\ (sum_bp_faced (sums st) = 0%Z -> bp_saved_pct st = 0%Q))
  /\ (forall rows player_id year_filter st ace_avg df_avg,
        stats_report rows player_id year_filter = Ok (Some (st, ace_avg, df_avg)) ->
        aggregate rows player_id year_filter = Ok st
        /\ (0 < total st)%Z
        /\ py_truediv (sum_aces (sums st)) (total st) = Ok ace_avg
        /\ py_truediv (sum_dfs (sums st)) (total st) = Ok df_avg).
Proof.
  split; [|split; [|split]].
  - apply stats_report_none.
  - intros rows pid yf.
    split; [apply aggregate_no_zero_division|apply stats_report_no_zero_division].
  - intros rows pid yf st. apply aggregate_guards.
  - apply stats_report_some.
Qed.

Lemma percentage_guards_after_empty_return_witness :
  exists st ace_avg df_avg,
    stats_report sample_player_rows (PStr "105173") PNone
    = Ok (Some (st, ace_avg, df_avg))
    /\ aggregate sample_player_rows (PStr "105173") PNone = Ok st
    /\ (0 < total st)%Z
    /\ py_truediv (sum_aces (sums st)) (total st) = Ok ace_avg
    /\ py_truediv (sum_dfs (sums st)) (total st) = Ok df_avg.
Proof.
  do 3 eexists. split; [vm_compute; reflexivity|].
  apply (proj2 (proj2 (proj2 percentage_guards_after_empty_return))
           sample_player_rows (PStr "105173") PNone).
  vm_compute. reflexivity.
Defined.

(** Two wins out of two on the deduplicated sample rows. *)
Example aggregate_sample :
  exists st,
    aggregate [ fields (as_dict (sample_match 1201 "105173" "100644"));
                fields (as_dict (sample_match 1150 "105173" "104925")) ]
      (PStr "105173") PNone = Ok st
    /\ total st = 2%Z /\ wins st = 2%Z /\ losses st = 0%Z
    /\ (win_rate st == 100)%Q
    /\ sum_aces (sums st) = 14%Z
    /\ (first_in_pct st == 4500 # 70)%Q
    /\ finals_played (sums st) = 2%Z /\ tb_matches (sums st) = 2%Z.
Proof. eexists. split; [vm_compute; reflexivity|]. vm_compute. repeat split. Qed.

(** ** Deduplication in the public operations *)

(** The three operations that run the seen-set loop hand on rows with
    pairwise distinct signatures. *)
Lemma player_stats_rows_distinct c player_id y s t out :
  fst (player_stats_rows c player_id y s t) = Ok out ->
  NoDup (map dict_signature out).
Proof.
  unfold player_stats_rows.
  destruct (fetch_rows_as_dicts _ _ _ _) as [rows c']. cbn [fst].
  apply dedup_loop_NoDup.
Qed.

Lemma head_to_head_rows_distinct c p1 p2 y s t out :
  fst (head_to_head_rows c p1 p2 y s t) = Ok out ->
  NoDup (map tuple_signature out).
Proof.
  unfold head_to_head_rows, fetchall. cbn [fst].
  apply (dedup_loop_NoDup tuple_signature).
Qed.

Lemma handle_pair_rows_distinct c p1 p2 y s t out :
  fst (handle_pair_rows c p1 p2 y s t) = Ok out ->
  NoDup (map (fun d => make_match_signature
                         (match raw d with Some r => RTuple r | None => RDict d end))
             out).
Proof.
  unfold handle_pair_rows, fetch_unique_match_dicts.
  destruct (fetch_rows_as_dicts _ _ _ _) as [rows c']. cbn [fst].
  apply dedup_loop_NoDup.
Qed.

(** C4 (divergence). Deduplication is not applied in every public
    operation: on a database that holds one contest under two match ids,
    the single-player, tournament and latest-matches results each keep
    both rows, two rows with equal signatures, in the list they print. *)
Theorem listings_keep_duplicates :
  let single :=
    fst (handle_single_rows overlapping_cursor (PStr "105173") PNone PNone PNone) in
  let tourney :=
    fst (handle_tournament_rows overlapping_cursor (PStr "Shanghai Masters")
           PNone PNone) in
  let latest := fst (handle_latest_rows overlapping_cursor PNone PNone) in
  single = [ sample_match 1201 "105173" "100644";
             sample_match 1187 "105173" "100644" ]
  /\ tourney = single /\ latest = single
  /\ tuple_signature (sample_match 1201 "105173" "100644")
     = tuple_signature (sample_match 1187 "105173" "100644")
  /\ ~ NoDup (map tuple_signature single).
Proof.
  cbv zeta.
  assert (Hs : fst (handle_single_rows overlapping_cursor (PStr "105173")
                      PNone PNone PNone)
               = [ sample_match 1201 "105173" "100644";
                   sample_match 1187 "105173" "100644" ]) by reflexivity.
  rewrite Hs. split; [reflexivity|]. split; [reflexivity|]. split; [reflexivity|].
  assert (Hsig : tuple_signature (sample_match 1201 "105173" "100644")
                 = tuple_signature (sample_match 1187 "105173" "100644"))
    by (vm_compute; reflexivity).
  split; [exact Hsig|].
  cbn [map]. rewrite Hsig. intros Hnd.
  apply NoDup_cons in Hnd as [Hnotin _]. apply Hnotin. left.
Qed.

(** On the same database the head-to-head operation keeps one row. *)
Example head_to_head_sample :
  fst (head_to_head_rows overlapping_cursor (PStr "105173") (PStr "100644")
         PNone PNone PNone)
  = Ok [ sample_match 1201 "105173" "100644" ].
Proof. vm_compute. reflexivity. Qed.

(** * Further properties *)

(** ** Signature codec: what the key reads *)

Lemma tuple_signature_reads (t : list pyval) :
  tuple_signature t
  = (do tourney_name <-
       res_map py_lower (strip_method (py_or (default PNone (t !! 1%nat)) (PStr "")));
     do round_name <-
       res_map py_lower (strip_method (py_or (default PNone (t !! 13%nat)) (PStr "")));
     do score <- strip_method (py_or (default PNone (t !! 11%nat)) (PStr ""));
     Ok (py_str (py_or (default PNone (t !! 5%nat)) (PStr "")), tourney_name,
         round_name,
         py_sorted [py_str (py_or (default PNone (t !! 7%nat)) (PStr ""));
                    py_str (py_or (default PNone (t !! 8%nat)) (PStr ""))],
         py_str (py_or (default PNone (t !! 6%nat)) (PStr "")), score)).
Proof.
  unfold tuple_signature, make_match_signature.
  rewrite !tuple_item_guarded.
  rewrite !(tuple_item_guarded_bind t _ _ _) by reflexivity.
  reflexivity.
Qed.

(** X1. The signature of a row depends only on seven columns: two
    tuples that agree at the offsets 1, 5, 6, 7, 8, 11 and 13, and two
    dicts that agree on the seven column names, have the same signature,
    whatever their other cells (match id, surface, statistics) hold. *)
Theorem signature_reads_seven_columns :
  (forall t1 t2 : list pyval,
     Forall (fun i => t1 !! i = t2 !! i) SIGNATURE_OFFSETS ->
     tuple_signature t1 = tuple_signature t2)
  /\ (forall d1 d2 : dict_row,
        Forall (fun k => fields d1 !! k = fields d2 !! k) SIGNATURE_COLUMNS ->
        dict_signature d1 = dict_signature d2).
Proof.
  split.
  - intros t1 t2 H. rewrite !tuple_signature_reads.
    repeat (apply List.Forall_cons_iff in H as [-> H]). reflexivity.
  - intros d1 d2 H. unfold dict_signature, make_match_signature, dict_get.
    repeat (apply List.Forall_cons_iff in H as [-> H]). reflexivity.
Qed.

(** The same contest under two match ids. *)
Lemma signature_reads_seven_columns_witness :
  tuple_signature (sample_match 1201 "105173" "100644")
  = tuple_signature (sample_match 1187 "105173" "100644").
Proof.
  apply (proj1 signature_reads_seven_columns).
  repeat (apply List.Forall_cons; [reflexivity|]). apply List.Forall_nil.
Defined.

(** X2. The dict path of the signature returns exactly when the
    tournament name, the round and the score are each falsy or a string;
    otherwise it raises AttributeError (a number has no [strip]). *)
Theorem dict_signature_ok_iff (d : dict_row) :
  if text_columns_strippable d
  then is_ok (dict_signature d)
  else dict_signature d = Raise AttributeError.
Proof.
  unfold text_columns_strippable, dict_signature, make_match_signature, strippable.
  destruct (dict_get (fields d) "tourney_name") as [|[]|z1|s1] eqn:E1;
  destruct (dict_get (fields d) "round") as [|[]|z2|s2] eqn:E2;
  destruct (dict_get (fields d) "score") as [|[]|z3|s3] eqn:E3;
  unfold py_or, truthy;
  repeat match goal with
         | |- context [(?z =? 0)%Z] => destruct (Z.eqb_spec z 0)
         | |- context [String.eqb ?s ""] => destruct (String.eqb_spec s "")
         end;
  cbn; try reflexivity; try (eexists; reflexivity).
Qed.

Example dict_signature_number_as_name :
  dict_signature
    {| fields := {[ "tourney_name" := PInt 2024 ]}; raw := None |}
  = Raise AttributeError.
Proof. vm_compute. reflexivity. Qed.

Example dict_signature_empty_row :
  dict_signature {| fields := ∅; raw := None |}
  = Ok ("", "", "", [""; ""], "", "").
Proof. vm_compute. reflexivity. Qed.

(** ** Match deduplicator: fixed points and the two call sites *)

Section dedup_more.
Context {A K : Type} `{Countable K}.
Variable key : A -> res K.

Lemma dedup_loop_keys_ok (rows out : list A) (seen : gset K) :
  dedup_loop key rows seen [] = Ok out ->
  Forall (fun r => is_ok (key r)) rows.
Proof.
  revert seen out. induction rows as [|r rows IH]; intros seen out; [constructor|].
  rewrite dedup_loop_cons. destruct (key r) as [k|e] eqn:Hk; simpl; [|done].
  case_bool_decide.
  - intros Hd. constructor; [by exists k|by eapply IH].
  - destruct (dedup_loop key rows ({[k]} ∪ seen) []) as [out'|] eqn:Hd;
      unfold res_map; simpl; [|done].
    intros _. constructor; [by exists k|by eapply IH].
Qed.

(** Rows with distinct keys, none of them seen, all pass. *)
Lemma dedup_loop_distinct (rows : list A) (seen : gset K) :
  Forall (fun r => is_ok (key r)) rows ->
  NoDup (map key rows) ->
  (forall r k, r ∈ rows -> key r = Ok k -> k ∉ seen) ->
  dedup_loop key rows seen [] = Ok rows.
Proof.
  intros Hok. revert seen. induction Hok as [|r rows [k Hk] _ IH]; intros seen Hnd Hnew.
  - reflexivity.
  - rewrite dedup_loop_cons, Hk; simpl.
    apply NoDup_cons in Hnd as [Hnotin Hnd].
    rewrite bool_decide_eq_false_2 by (eapply Hnew; [left|done]).
    rewrite IH; [done|done|].
    intros r' k' Hin Hk' [Heq|Hseen]%elem_of_union.
    + apply elem_of_singleton in Heq as ->. apply Hnotin.
      apply list_elem_of_fmap. exists r'. split; [congruence|done].
    + eapply Hnew; [right; exact Hin|exact Hk'|exact Hseen].
Qed.

(** The loop kept every row: the keys were distinct. *)
Lemma dedup_loop_kept_all (rows : list A) (seen : gset K) :
  dedup_loop key rows seen [] = Ok rows -> NoDup (map key rows).
Proof. apply dedup_loop_NoDup. Qed.

End dedup_more.

(** The loop commutes with a renaming of the rows that keeps the keys. *)
Lemma dedup_loop_map {A B K : Type} `{Countable K}
    (key1 : A -> res K) (key2 : B -> res K) (f : A -> B)
    (rows : list A) (seen : gset K) :
  (forall x, key2 (f x) = key1 x) ->
  dedup_loop key2 (map f rows) seen []
  = res_map (map f) (dedup_loop key1 rows seen []).
Proof.
  intros Hkey. revert seen. induction rows as [|r rows IH]; intros seen; [done|].
  cbn [map]. rewrite !dedup_loop_cons, Hkey.
  destruct (key1 r) as [k|e]; simpl; [|done].
  case_bool_decide; [apply IH|].
  rewrite IH. by destruct (dedup_loop key1 rows ({[k]} ∪ seen) []).
Qed.

(** X3. Deduplication leaves a list unchanged exactly when every row
    has a signature and no two rows share one. *)
Theorem dedupe_fixed_iff_distinct (rows : list dict_row) :
  deduplicate_matches rows = Ok rows
  <-> Forall (fun r => is_ok (dict_signature r)) rows
      /\ NoDup (map dict_signature rows).
Proof.
  unfold deduplicate_matches. split.
  - intros Hd. split; [by eapply dedup_loop_keys_ok | by eapply dedup_loop_kept_all].
  - intros [Hok Hnd]. apply dedup_loop_distinct; [done|done|].
    intros r k _ _. apply not_elem_of_empty.
Qed.

(** X4. The two deduplicating fetches agree: on a statement whose
    result has the columns of the [matches] table, the rows kept by
    [fetch_unique_match_dicts] (keyed by the raw tuple) carry the same
    fields, in the same order, as the rows [deduplicate_matches] keeps
    of [fetch_rows_as_dicts] (keyed by the dict), and both leave the
    cursor in the same state. *)
Theorem unique_fetch_agrees_with_dedupe (c : cursor) (query : string)
    (params : list pyval) :
  (backend c query params).1 = MATCHES_COLUMNS ->
  res_map (map fields) (fetch_unique_match_dicts c query params).1
  = res_map (map fields)
      (deduplicate_matches (fetch_rows_as_dicts c query params false).1)
  /\ (fetch_unique_match_dicts c query params).2
     = (fetch_rows_as_dicts c query params false).2.
Proof.
  intros Hcols.
  unfold fetch_unique_match_dicts, deduplicate_matches, fetch_rows_as_dicts,
    fetchall, execute.
  destruct (backend c query params) as [cols raws]. simpl in Hcols. subst cols.
  cbn [description pending fst snd]. split; [|reflexivity].
  rewrite (dedup_loop_map tuple_signature _
             (fun r => {| fields := dict_zip MATCHES_COLUMNS r; raw := Some r |}))
    by reflexivity.
  rewrite (dedup_loop_map tuple_signature dict_signature
             (fun r => {| fields := dict_zip MATCHES_COLUMNS r; raw := None |}))
    by (intros r; apply signature_paths_agree).
  destruct (dedup_loop tuple_signature raws ∅ []) as [out|e]; [|reflexivity].
  unfold res_map; simpl. f_equal. by rewrite !map_map.
Qed.

Lemma unique_fetch_agrees_with_dedupe_witness :
  res_map (map fields)
    (fetch_unique_match_dicts overlapping_cursor PAIR_SQL []).1
  = res_map (map fields)
      (deduplicate_matches
         (fetch_rows_as_dicts overlapping_cursor PAIR_SQL [] false).1)
  /\ (fetch_unique_match_dicts overlapping_cursor PAIR_SQL []).2
     = (fetch_rows_as_dicts overlapping_cursor PAIR_SQL [] false).2.
Proof.
  apply unique_fetch_agrees_with_dedupe. reflexivity.
Defined.

(** ** Fuzzy name resolver: the tiers *)

Lemma execute_issued q ps c :
  issued (execute q ps c) = issued c ++ [(q, ps)]
  /\ backend (execute q ps c) = backend c
  /\ pending (execute q ps c) = (backend c q ps).2.
Proof. unfold execute. by destruct (backend c q ps). Qed.

Lemma fetchone_issued c :
  issued (fetchone c).2 = issued c /\ backend (fetchone c).2 = backend c
  /\ (fetchone c).1 = head (pending c).
Proof. unfold fetchone. by destruct (pending c). Qed.

(** One tier: the statement is logged, and its first row is read. *)
Lemma tier_step q ps c :
  let r := fetchone (execute q ps c) in
  r.1 = head (backend c q ps).2
  /\ issued r.2 = issued c ++ [(q, ps)]
  /\ backend r.2 = backend c.
Proof.
  cbv zeta.
  destruct (execute_issued q ps c) as (Hi & Hb & Hp).
  destruct (fetchone_issued (execute q ps c)) as (Hi' & Hb' & Hr).
  rewrite Hr, Hp, Hi', Hi, Hb', Hb. done.
Qed.

Ltac no_statement :=
  exists 0%nat; cbn [take fst snd]; rewrite app_nil_r;
  split; [lia|split; reflexivity].

(** X5. Resolver tier ordering: when the exact-match statement returns
    a row, the player of that row is the result and no other statement
    is issued, whatever the prefix and substring tiers would find. *)
Theorem exact_tier_wins (player_name : string) (c : cursor)
    (id name : pyval) (more : list pyval) :
  (2 <= String.length (py_strip player_name))%nat ->
  head (backend c PLAYER_EXACT_SQL [PStr (py_strip player_name)]).2
    = Some (id :: name :: more) ->
  let r := validate_and_find_player (Some player_name) c in
  r.1 = Ok (id, name)
  /\ issued r.2 = issued c ++ [(PLAYER_EXACT_SQL, [PStr (py_strip player_name)])].
Proof.
  intros Hlen Hrow. cbv zeta. unfold validate_and_find_player.
  assert (Hne : nonempty player_name = true).
  { destruct player_name; [vm_compute in Hlen; lia|done]. }
  rewrite Hne. rewrite bool_decide_eq_false_2 by lia. cbn [negb orb].
  destruct (tier_step PLAYER_EXACT_SQL [PStr (py_strip player_name)] c)
    as (Hr & Hi & _).
  destruct (fetchone _) as [r c1]. cbn [fst snd] in *.
  rewrite Hr, Hrow. cbn [row_truthy fst snd]. split; [reflexivity|exact Hi].
Qed.

(** Two players share the prefix; the one matched exactly is returned. *)
Lemma exact_tier_wins_witness :
  let c := {| backend := fun q _ =>
                if String.eqb q PLAYER_EXACT_SQL
                then ([], [[PStr "104925"; PStr "Novak Djokovic"]])
                else ([], [[PStr "999999"; PStr "Novak Djokovic Jr"]]);
              issued := []; description := []; pending := [] |} in
  let r := validate_and_find_player (Some " novak djokovic ") c in
  r.1 = Ok (PStr "104925", PStr "Novak Djokovic")
  /\ issued r.2 = issued c ++ [(PLAYER_EXACT_SQL, [PStr (py_strip " novak djokovic ")])].
Proof.
  cbv zeta. apply (exact_tier_wins _ _ _ _ []).
  - vm_compute. lia.
  - vm_compute. reflexivity.
Defined.

(** X6. The resolver issues at most three statements, always an initial
    segment of exact, prefix, substring in that order, and never changes
    the database behind the cursor. *)
Theorem resolver_issues_tiers_in_order (player_name : option string) (c : cursor) :
  let r := validate_and_find_player player_name c in
  exists n, (n <= 3)%nat
    /\ issued r.2
       = issued c ++ take n (player_tiers (py_strip (default "" player_name)))
    /\ backend r.2 = backend c.
Proof.
  cbv zeta. unfold validate_and_find_player.
  destruct player_name as [s|]; cbn [default from_option id];
    [|no_statement].
  destruct (negb (nonempty s) || bool_decide (String.length (py_strip s) < 2)%nat);
    [no_statement|].
  set (clean := py_strip s).
  destruct (tier_step PLAYER_EXACT_SQL [PStr clean] c) as (_ & Hi1 & Hb1).
  destruct (fetchone (execute PLAYER_EXACT_SQL [PStr clean] c)) as [r1 c1].
  cbn [fst snd] in *.
  destruct (row_truthy r1); [exists 1%nat; cbn [fst snd take player_tiers]; auto with lia|].
  destruct (tier_step PLAYER_PREFIX_SQL [PStr (clean ++ "%")%string] c1)
    as (_ & Hi2 & Hb2).
  destruct (fetchone (execute PLAYER_PREFIX_SQL _ c1)) as [r2 c2].
  cbn [fst snd] in *.
  destruct (row_truthy r2).
  { exists 2%nat. cbn [fst snd take player_tiers].
    rewrite Hi2, Hi1, Hb2, Hb1, <- app_assoc. auto with lia. }
  destruct (tier_step PLAYER_SUBSTRING_SQL [PStr ("%" ++ clean ++ "%")%string] c2)
    as (_ & Hi3 & Hb3).
  destruct (fetchone (execute PLAYER_SUBSTRING_SQL _ c2)) as [r3 c3].
  cbn [fst snd] in *.
  exists 3%nat.
  assert (issued c3 = issued c ++ take 3 (player_tiers clean) /\ backend c3 = backend c).
  { cbn [take player_tiers]. rewrite Hi3, Hi2, Hi1, Hb3, Hb2, Hb1, <- !app_assoc. auto. }
  destruct (row_truthy r3); cbn [fst snd]; split; (lia || assumption).
Qed.

Lemma find_best_tournament_issued (c : cursor) (candidate : option string) :
  let r := find_best_tournament c candidate in
  exists n, (n <= 3)%nat
    /\ issued r.2
       = issued c ++ take n (tournament_tiers (py_strip (default "" candidate)))
    /\ backend r.2 = backend c.
Proof.
  cbv zeta. unfold find_best_tournament.
  destruct candidate as [s|]; cbn [default from_option id]; [|no_statement].
  destruct (negb (nonempty s)); [no_statement|].
  case_bool_decide as Hlen; [no_statement|].
  set (clean := py_strip s).
  destruct (tier_step TOURNEY_EXACT_SQL [PStr clean] c) as (_ & Hi1 & Hb1).
  destruct (fetchone (execute TOURNEY_EXACT_SQL [PStr clean] c)) as [r1 c1].
  cbn [fst snd] in *.
  destruct (row_truthy r1); [exists 1%nat; cbn [fst snd take tournament_tiers]; auto with lia|].
  destruct (tier_step TOURNEY_LIKE_SQL [PStr ("%" ++ clean ++ "%")%string] c1)
    as (_ & Hi2 & Hb2).
  destruct (fetchone (execute TOURNEY_LIKE_SQL _ c1)) as [r2 c2].
  cbn [fst snd] in *.
  destruct (row_truthy r2).
  { exists 2%nat. cbn [fst snd take tournament_tiers].
    rewrite Hi2, Hi1, Hb2, Hb1, <- app_assoc. auto with lia. }
  destruct (tier_step TOURNEY_LIKE_SQL
              [PStr ("%" ++ py_join "%" (py_split clean) ++ "%")%string] c2)
    as (_ & Hi3 & Hb3).
  destruct (fetchone (execute TOURNEY_LIKE_SQL _ c2)) as [r3 c3].
  cbn [fst snd] in *.
  exists 3%nat.
  assert (issued c3 = issued c ++ take 3 (tournament_tiers clean)
          /\ backend c3 = backend c).
  { cbn [take tournament_tiers]. rewrite Hi3, Hi2, Hi1, Hb3, Hb2, Hb1, <- !app_assoc. auto. }
  destruct (row_truthy r3); cbn [fst snd]; split; (lia || assumption).
Qed.

(** X7. Tournament lookup: a candidate that is [None] or shorter than 3
    trimmed characters gives [None] without a statement; otherwise at
    most three statements are issued, an initial segment of exact match,
    substring, and substring with a wildcard between the words. *)
Theorem tournament_lookup_tiers (c : cursor) (candidate : option string) :
  let r := find_best_tournament c candidate in
  ((forall s, candidate = Some s -> (String.length (py_strip s) < 3)%nat) ->
   r = (PNone, c))
  /\ exists n, (n <= 3)%nat
       /\ issued r.2
          = issued c ++ take n (tournament_tiers (py_strip (default "" candidate)))
       /\ backend r.2 = backend c.
Proof.
  cbv zeta. split; [|apply find_best_tournament_issued].
  unfold find_best_tournament.
  destruct candidate as [s|]; [|done].
  intros Hs. specialize (Hs s eq_refl).
  destruct (negb (nonempty s)); [done|].
  by rewrite bool_decide_eq_true_2.
Qed.

(** The third statement puts a wildcard between the words. *)
Example tournament_wildcard_statement :
  let c := {| backend := fun _ _ => ([], []); issued := []; description := [];
              pending := [] |} in
  issued (find_best_tournament c (Some "Roma  Masters")).2
  = [ (TOURNEY_EXACT_SQL, [PStr "Roma  Masters"]);
      (TOURNEY_LIKE_SQL, [PStr "%Roma  Masters%"]);
      (TOURNEY_LIKE_SQL, [PStr "%Roma%Masters%"]) ].
Proof. vm_compute. reflexivity. Qed.

(** ** Filter context: memory, events, years, surfaces *)

(** X8. The message-derived values and the three explicit flags of a
    filter context do not depend on the slot memory, and under any
    intent other than the informing one neither do the effective year,
    surface and tournament. *)
Theorem context_ignores_memory (t : tracker) (sl : gmap string pyval) :
  let c := build_filter_context t in
  let c' := build_filter_context (with_slots t sl) in
  (message_year c, message_surface c, message_tournament c)
    = (message_year c', message_surface c', message_tournament c')
  /\ (explicit_year c, explicit_surface c, explicit_tournament c)
     = (explicit_year c', explicit_surface c', explicit_tournament c')
  /\ (eq_str (intent_name c) "inform_filters" = false ->
      (year c, surface c, tournament c) = (year c', surface c', tournament c')).
Proof.
  cbv zeta. unfold build_filter_context, with_slots.
  cbn [latest_message message_year message_surface message_tournament
       explicit_year explicit_surface explicit_tournament intent_name
       year surface tournament].
  split; [reflexivity|]. split.
  - by destruct (eq_str _ "inform_filters").
  - by intros ->.
Qed.

(** X9. Slot events of a built context.  Under the informing intent no
    event clears a slot, with or without [clear_unset].  Under any other
    intent, [clear_unset] makes the events set the three filter slots, in
    the order year, surface, tournament, to exactly the message-derived
    values (a value absent from the message clears its slot), and without
    [clear_unset] no event clears a slot. *)
Theorem slot_events_of_built_context (t : tracker) (clear_unset : bool) :
  let c := build_filter_context t in
  (eq_str (intent_name c) "inform_filters" = true ->
   Forall sets_value (slot_events c clear_unset))
  /\ (eq_str (intent_name c) "inform_filters" = false ->
      slot_events c true
      = [ SlotSet "year" (message_year c);
          SlotSet "surface" (message_surface c);
          SlotSet "tournament_name" (message_tournament c) ]
      /\ Forall sets_value (slot_events c false)).
Proof.
  cbv zeta. unfold slot_events, build_filter_context.
  cbn [message_year message_surface message_tournament
       explicit_year explicit_surface explicit_tournament intent_name
       year surface tournament].
  set (my := match entity_values "year" _ with _ :: _ => _ | [] => _ end).
  set (ms := match entity_values "surface" _ with _ :: _ => _ | [] => _ end).
  set (mt := match entity_values "tournament" _ with _ :: _ => _ | [] => _ end).
  split.
  - intros ->.
    destruct my, ms, mt; cbn; repeat constructor; discriminate.
  - intros ->. split.
    + by destruct my, ms, mt.
    + destruct my, ms, mt; cbn; repeat constructor; discriminate.
Qed.

Lemma rmatch_year (st : mstate) (k : mstate -> option mstate) (r : mstate) :
  rmatch YEAR_RE st k = Some r ->
  exists c1 c2 c3 c4 l',
    rest st = c1 :: c2 :: c3 :: c4 :: l'
    /\ is_year_string (str [c1; c2; c3; c4]) = true
    /\ k {| prev := Some c4; rest := l'; groups := groups st |} = Some r.
Proof.
  unfold YEAR_RE. cbn [rmatch lit chars list_ascii_of_string rest prev groups].
  destruct (rest st) as [|c1 [|c2 [|c3 [|c4 l']]]];
    repeat match goal with
           | |- context [if ?b then _ else _] => destruct b eqn:?
           end; try discriminate;
    intros Hk; exists c1, c2, c3, c4, l'; (split; [reflexivity|]);
    (split; [|first [exact Hk | by destruct (k _)]]);
    unfold is_year_string, str, chars; cbn [string_of_list_ascii list_ascii_of_string];
    repeat match goal with H : _ = true |- _ => rewrite H end;
    cbn; rewrite ?orb_true_r; reflexivity.
Qed.

Lemma take_prefix_four {A} (c1 c2 c3 c4 : A) (l' : list A) :
  take (length (c1 :: c2 :: c3 :: c4 :: l') - length l') (c1 :: c2 :: c3 :: c4 :: l')
  = [c1; c2; c3; c4].
Proof.
  cbn [length]. replace (S (S (S (S (length l')))) - length l')%nat with 4%nat by lia.
  reflexivity.
Qed.

Lemma search_year (pr : option ascii) (l : list ascii) m :
  search_from YEAR_RE pr l = Some m -> is_year_string m.1 = true.
Proof.
  revert pr. induction l as [|c l IH]; intros pr; cbn [search_from].
  - destruct (rmatch _ _ _) as [st|] eqn:Hm; [|done].
    apply rmatch_year in Hm as (c1 & c2 & c3 & c4 & l' & Hrest & _). done.
  - destruct (rmatch _ _ _) as [st|] eqn:Hm; [|apply IH].
    apply rmatch_year in Hm as (c1 & c2 & c3 & c4 & l' & Hrest & Hy & [= <-]).
    cbn [rest] in Hrest. intros [= <-]. cbn [fst rest].
    change (S (length l)) with (length (c :: l)).
    rewrite Hrest, take_prefix_four. exact Hy.
Qed.

Lemma search_year_word (pr : option ascii) (l : list ascii) m :
  search_from YEAR_WORD_RE pr l = Some m -> is_year_string m.1 = true.
Proof.
  assert (Hstep : forall pr l st,
            rmatch YEAR_WORD_RE {| prev := pr; rest := l; groups := [] |} Some = Some st ->
            is_year_string (str (take (length l - length (rest st)) l)) = true).
  { intros pr0 l0 st. unfold YEAR_WORD_RE. cbn [rmatch prev rest].
    destruct (xorb _ _); [|done]. intros Hm.
    apply rmatch_year in Hm as (c1 & c2 & c3 & c4 & l' & Hrest & Hy & Hk).
    cbn [rest prev groups] in *. destruct (xorb _ _); [|done].
    injection Hk as <-. cbn [rest]. subst l0. by rewrite take_prefix_four. }
  revert pr. induction l as [|c l IH]; intros pr; cbn [search_from].
  - destruct (rmatch _ _ _) as [st|] eqn:Hm; [|done].
    intros [= <-]. exact (Hstep _ [] _ Hm).
  - destruct (rmatch _ _ _) as [st|] eqn:Hm; [|apply IH].
    intros [= <-]. exact (Hstep _ (c :: l) _ Hm).
Qed.

Lemma normalize_year_valid (v : pyval) : valid_year (normalize_year_value v).
Proof.
  unfold normalize_year_value, re_search.
  destruct (negb (truthy v)); [by left|].
  destruct (search_from _ _ _) as [m|] eqn:Hm; [|by left].
  right. exists m.1. split; [done|]. by eapply search_year.
Qed.

Lemma extract_year_valid (s : string) : valid_year (extract_year_from_text s).
Proof.
  unfold extract_year_from_text, re_search.
  destruct (negb (nonempty s)); [by left|].
  destruct (search_from _ _ _) as [m|] eqn:Hm; [|by left].
  right. exists m.1. split; [done|]. by eapply search_year_word.
Qed.

(** X10. Year normalisation has a closed range: [normalize_year_value]
    and [extract_year_from_text] return [None] or a string of four
    characters, "19" or "20" followed by two decimal digits, and so does
    the message-derived year of every filter context. *)
Theorem year_range_closed (v : pyval) (s : string) (t : tracker) :
  valid_year (normalize_year_value v)
  /\ valid_year (extract_year_from_text s)
  /\ valid_year (message_year (build_filter_context t)).
Proof.
  split; [apply normalize_year_valid|]. split; [apply extract_year_valid|].
  unfold build_filter_context; cbn [message_year].
  destruct (entity_values "year" _);
    [apply extract_year_valid | apply normalize_year_valid].
Qed.

(** The entity path finds a year inside a longer number; the text path
    wants it as a word of its own. *)
Example year_examples :
  normalize_year_value (PInt 120245) = PStr "2024"
  /\ extract_year_from_text "torneo 120245" = PNone
  /\ extract_year_from_text "Roma 1998, poi 2024" = PStr "1998"
  /\ normalize_year_value (PStr "anno 1899") = PNone.
Proof. vm_compute. repeat split; reflexivity. Qed.

(** X11. Surface normalisation is idempotent: a value it returns is
    returned unchanged when normalised again, so a surface code read back
    from the slot memory keeps its meaning. *)
Theorem normalize_surface_idempotent (v : pyval) :
  normalize_surface_value (normalize_surface_value v) = normalize_surface_value v.
Proof.
  destruct (normalize_surface_valid v) as [->|(code & -> & Hin)]; [reflexivity|].
  cbn in Hin.
  destruct Hin as [<-|[<-|[<-|[<-|[]]]]]; vm_compute; reflexivity.
Qed.

(** ** Heuristic text extractor: shape of the results *)

Lemma chars_str (l : list ascii) : chars (str l) = l.
Proof. apply list_ascii_of_string_of_list_ascii. Qed.

Lemma str_chars (s : string) : str (chars s) = s.
Proof. apply string_of_list_ascii_of_string. Qed.

Lemma nonempty_str (l : list ascii) : nonempty (str l) = negb (is_nil l).
Proof. by destruct l. Qed.

Lemma drop_while_sublist {A} (p : A -> bool) (l : list A) :
  sublist (drop_while p l) l.
Proof.
  induction l as [|x l IH]; simpl; [constructor|].
  destruct (p x); [by apply sublist_cons|]. reflexivity.
Qed.

Lemma drop_while_head {A} (p : A -> bool) (l : list A) x :
  head (drop_while p l) = Some x -> p x = false.
Proof.
  induction l as [|y l IH]; simpl; [done|].
  destruct (p y) eqn:Hy; [exact IH|]. by intros [= <-].
Qed.

Lemma filter_sublist {A} (p : A -> bool) (l : list A) :
  sublist (List.filter p l) l.
Proof.
  induction l as [|x l IH]; simpl; [constructor|].
  destruct (p x); [by apply sublist_skip|by apply sublist_cons].
Qed.

(** The tokens of [split]: non-empty runs of characters that are in the
    input and are not white space. *)
Lemma split_ws_tokens (P : ascii -> bool) (cur l : list ascii) :
  forallb P cur = true -> forallb P l = true ->
  forallb (fun c => negb (is_space c)) cur = true ->
  Forall (fun tok => nonempty tok = true
                     /\ forallb (fun c => P c && negb (is_space c)) (chars tok) = true)
         (split_ws cur l).
Proof.
  assert (Hcur : forall cur, cur <> [] -> forallb P cur = true ->
            forallb (fun c => negb (is_space c)) cur = true ->
            nonempty (str (rev cur)) = true
            /\ forallb (fun c => P c && negb (is_space c)) (chars (str (rev cur))) = true).
  { intros cur0 Hne HP Hsp. rewrite nonempty_str, chars_str. split.
    - destruct cur0 as [|c cur0]; [done|]. simpl. by destruct (rev cur0).
    - apply forallb_forall. intros c Hin. apply in_rev in Hin.
      rewrite forallb_forall in HP, Hsp. by rewrite (HP c Hin), (Hsp c Hin). }
  revert cur. induction l as [|c l IH]; intros cur HPc HPl Hsp; simpl.
  - destruct cur as [|c0 cur]; [constructor|].
    constructor; [by apply Hcur|constructor].
  - simpl in HPl. apply andb_true_iff in HPl as [HPc0 HPl].
    destruct (is_space c) eqn:Hc.
    + destruct cur as [|c0 cur]; [by apply IH|].
      constructor; [by apply Hcur|by apply IH].
    + apply IH; simpl; [by rewrite HPc0|done|by rewrite Hc].
Qed.

Lemma sub_non_letters_chars (text : string) :
  forallb keeps_char (chars (sub_non_letters text)) = true.
Proof.
  unfold sub_non_letters. rewrite chars_str.
  apply forallb_forall. intros c Hin. apply in_map_iff in Hin as (c0 & <- & _).
  by destruct (keeps_char c0) eqn:Hk.
Qed.

Lemma kept_not_space_is_token_char (c : ascii) :
  keeps_char c && negb (is_space c) = true -> token_char c = true.
Proof.
  unfold keeps_char, token_char. intros H.
  apply andb_true_iff in H as [Hk Hsp].
  destruct (is_char " " c) eqn:Hs.
  - apply Ascii.eqb_eq in Hs as <-. vm_compute in Hsp. done.
  - destruct (is_latin_letter c), (is_char "'" c), (is_char "-" c);
      simpl in *; done.
Qed.

Lemma split_sub_tokens (text : string) :
  Forall (fun tok => nonempty tok = true /\ forallb token_char (chars tok) = true)
         (py_split (sub_non_letters text)).
Proof.
  unfold py_split.
  eapply Forall_impl;
    [apply (split_ws_tokens keeps_char []);
       [done|apply sub_non_letters_chars|done]|].
  intros tok [Hne Hall]. split; [done|].
  apply forallb_forall. intros c Hin. rewrite forallb_forall in Hall.
  by apply kept_not_space_is_token_char, Hall.
Qed.

Lemma Forall_sublist_of {A} (P : A -> Prop) (l1 l2 : list A) :
  sublist l1 l2 -> Forall P l2 -> Forall P l1.
Proof.
  intros Hs Hall. apply List.Forall_forall. intros x Hin.
  rewrite List.Forall_forall in Hall. apply Hall.
  apply list_elem_of_In. eapply elem_of_sublist; [|exact Hs].
  by apply list_elem_of_In.
Qed.

Lemma tokenize_sublist (text : string) :
  sublist (_tokenize text)
    (List.filter keeps_token
       (List.filter nonempty (py_split (sub_non_letters text)))).
Proof.
  unfold _tokenize. cbv zeta. rewrite tokenize_loop_spec. cbn [is_nil].
  apply drop_while_sublist.
Qed.

Lemma tokenize_tokens_ok (text : string) : Forall token_ok (_tokenize text).
Proof.
  eapply Forall_sublist_of; [apply tokenize_sublist|].
  apply List.Forall_forall. intros tok Hin.
  apply filter_In in Hin as [Hin Hkeep].
  apply filter_In in Hin as [Hin _].
  pose proof (split_sub_tokens text) as Hall.
  rewrite List.Forall_forall in Hall. destruct (Hall tok Hin) as [Hne Hch].
  by repeat split.
Qed.

(** X12. Every token [_tokenize] returns is non-empty, consists of
    letters, apostrophes and hyphens only (no white space, no digit), is
    not a connector word, and the first token is not a filler word. *)
Theorem tokens_well_formed (text : string) :
  Forall token_ok (_tokenize text)
  /\ forall tok, head (_tokenize text) = Some tok -> is_filler tok = false.
Proof.
  split; [apply tokenize_tokens_ok|].
  unfold _tokenize. cbv zeta. rewrite tokenize_loop_spec. cbn [is_nil].
  apply drop_while_head.
Qed.

Lemma token_char_not_space (c : ascii) :
  token_char c = true -> is_space c = false.
Proof.
  destruct c as [[] [] [] [] [] [] [] []]; vm_compute; congruence.
Qed.

Lemma sublist_rev {A} (l1 l2 : list A) :
  sublist l1 l2 -> sublist (rev l1) (rev l2).
Proof.
  induction 1 as [|x l1 l2 _ IH|x l1 l2 _ IH]; simpl.
  - constructor.
  - by apply sublist_app.
  - by apply sublist_inserts_r.
Qed.

Lemma chars_app (a b : string) : chars (a ++ b)%string = chars a ++ chars b.
Proof. induction a as [|c a IH]; simpl; [done|]. unfold chars in *. simpl. by rewrite IH. Qed.

(** A run without white space is read into the current token. *)
Lemma split_ws_run (l1 l2 cur : list ascii) :
  forallb (fun c => negb (is_space c)) l1 = true ->
  split_ws cur (l1 ++ l2) = split_ws (rev l1 ++ cur) l2.
Proof.
  revert cur. induction l1 as [|c l1 IH]; intros cur Hns; [done|].
  simpl in Hns. apply andb_true_iff in Hns as [Hc Hns].
  apply negb_true_iff in Hc. cbn [app split_ws]. rewrite Hc.
  rewrite IH by done. simpl. by rewrite <- app_assoc.
Qed.

(** Splitting the join of tokens gives the tokens back. *)
Lemma split_join (l : list string) :
  Forall (fun t => nonempty t = true
                   /\ forallb (fun c => negb (is_space c)) (chars t) = true) l ->
  py_split (py_join " " l) = l.
Proof.
  unfold py_split. induction 1 as [|x l [Hne Hns] Hall IH]; [done|].
  assert (Hx : chars x <> []).
  { intros E. rewrite <- (str_chars x), E in Hne. done. }
  destruct l as [|y l].
  - cbn [py_join]. rewrite <- (app_nil_r (chars x)).
    rewrite split_ws_run by done. rewrite app_nil_r. cbn [split_ws].
    destruct (rev (chars x)) eqn:E.
    + apply (f_equal (@rev _)) in E. rewrite rev_involutive in E. done.
    + rewrite <- E, rev_involutive. by rewrite str_chars.
  - change (py_join " " (x :: y :: l))
      with (x ++ " " ++ py_join " " (y :: l))%string.
    rewrite !chars_app. rewrite split_ws_run by done. rewrite app_nil_r.
    change (chars " ") with [" "%char]. cbn [app split_ws].
    change (is_space " ") with true. cbn match.
    destruct (rev (chars x)) eqn:E.
    + apply (f_equal (@rev _)) in E. rewrite rev_involutive in E. done.
    + rewrite <- E, rev_involutive, str_chars. f_equal. exact IH.
Qed.

Lemma token_ok_splittable (l : list string) :
  Forall token_ok l ->
  Forall (fun t => nonempty t = true
                   /\ forallb (fun c => negb (is_space c)) (chars t) = true) l.
Proof.
  intros Hall. eapply Forall_impl; [exact Hall|].
  intros t (Hne & Hch & _). split; [done|].
  apply forallb_forall. intros c Hin. rewrite forallb_forall in Hch.
  by rewrite (token_char_not_space c (Hch c Hin)).
Qed.

(** The collecting loop takes a prefix of at most three tokens. *)
Lemma collect_loop_prefix (tokens acc : list string) :
  (length acc < 3)%nat ->
  exists k, collect_loop tokens acc = acc ++ take k tokens
            /\ (length (collect_loop tokens acc) <= 3)%nat.
Proof.
  revert acc. induction tokens as [|tok tokens IH]; intros acc Hacc.
  - exists 0%nat. cbn. rewrite app_nil_r. split; [done|lia].
  - cbn [collect_loop]. destruct (in_words _BREAK_TOKENS (py_lower tok) || py_isdigit tok).
    + exists 0%nat. cbn. rewrite app_nil_r. split; [done|lia].
    + case_bool_decide as Hlen.
      * exists 1%nat. cbn. split; [done|]. rewrite length_app in *. simpl in *. lia.
      * destruct (IH (acc ++ [tok])) as (k & Hk & Hle).
        { rewrite length_app in *. simpl in *. lia. }
        exists (S k). rewrite Hk at 1. cbn [take]. rewrite <- app_assoc. done.
Qed.

(** The tokens the cleaner joins: at most three, taken from the tokens
    of the fragment in their order. *)
Lemma clean_fragment_words (fragment : string) (from_end : bool) :
  exists ws, _clean_player_fragment fragment from_end = py_join " " ws
             /\ (length ws <= 3)%nat
             /\ sublist ws (_tokenize fragment).
Proof.
  unfold _clean_player_fragment.
  destruct (is_nil (_tokenize fragment)) eqn:Hnil.
  { exists []. split; [done|]. split; [simpl; lia|apply sublist_nil_l]. }
  set (t1 := drop_while _ (_tokenize fragment)).
  set (t2 := rev (drop_while _ (rev t1))).
  assert (Hsub : sublist t2 (_tokenize fragment)).
  { transitivity t1; [|apply drop_while_sublist].
    unfold t2. rewrite <- (rev_involutive t1) at 2.
    apply sublist_rev, drop_while_sublist. }
  destruct (is_nil t2) eqn:Hnil2.
  { exists []. split; [done|]. split; [simpl; lia|apply sublist_nil_l]. }
  destruct from_end.
  - destruct (collect_loop_prefix (rev t2) []) as (k & Hk & Hle); [simpl; lia|].
    destruct (is_nil (collect_loop (rev t2) [])) eqn:Hc.
    + exists (rev (option_list (last t2))). split; [done|].
      destruct (last t2) as [x|] eqn:Hl; simpl; (split; [lia|]);
        [|apply sublist_nil_l].
      transitivity t2; [|done]. apply singleton_sublist_l.
      apply last_Some in Hl as (l' & ->). apply elem_of_app. right. by left.
    + exists (rev (collect_loop (rev t2) [])). split; [done|].
      split; [by rewrite length_rev|].
      transitivity t2; [|done]. rewrite Hk. cbn [app].
      rewrite <- (rev_involutive t2) at 2. apply sublist_rev, sublist_take.
  - destruct (collect_loop_prefix t2 []) as (k & Hk & Hle); [simpl; lia|].
    destruct (is_nil (collect_loop t2 [])) eqn:Hc.
    + exists (option_list (head t2)). split; [done|].
      destruct t2 as [|x t2']; simpl; (split; [lia|]); [apply sublist_nil_l|].
      transitivity (x :: t2'); [|done]. apply singleton_sublist_l. by left.
    + exists (collect_loop t2 []). split; [done|]. split; [done|].
      transitivity t2; [|done]. rewrite Hk. apply sublist_take.
Qed.

(** X13. The cleaned fragment is a name of at most three words, and its
    words are tokens of the fragment, in the fragment's order. *)
Theorem clean_fragment_at_most_three_tokens (fragment : string) (from_end : bool) :
  let words := py_split (_clean_player_fragment fragment from_end) in
  (length words <= 3)%nat /\ sublist words (_tokenize fragment).
Proof.
  cbv zeta.
  destruct (clean_fragment_words fragment from_end) as (ws & -> & Hlen & Hsub).
  rewrite split_join; [done|].
  apply token_ok_splittable.
  eapply Forall_sublist_of; [exact Hsub|].
  apply tokenize_tokens_ok.
Qed.

Lemma extract_loop_invariant (candidates results : list string) :
  NoDup (map py_lower results) ->
  Forall (fun n => nonempty n = true) results ->
  let r := extract_loop candidates results in
  NoDup (map py_lower r)
  /\ Forall (fun n => nonempty n = true) r
  /\ (length r <= length results + length candidates)%nat.
Proof.
  cbv zeta. revert results.
  induction candidates as [|cand candidates IH]; intros results Hnd Hne.
  - simpl. split; [done|]. split; [done|lia].
  - cbn [extract_loop].
    set (cleaned := strip_by (mem_char " ,.-") cand).
    destruct (nonempty cleaned) eqn:Hc; cbn [andb].
    + destruct (forallb _ results) eqn:Hall.
      * destruct (IH (results ++ [cleaned])) as (H1 & H2 & H3).
        { rewrite map_app. apply NoDup_app. split; [done|]. split.
          - intros x Hx Hk. inversion Hk as [|? ? ? Hk']; subst; [|inversion Hk'].
            apply list_elem_of_fmap in Hx as (e & He & Hin).
            rewrite forallb_forall in Hall.
            apply list_elem_of_In in Hin. specialize (Hall e Hin).
            apply negb_true_iff, String.eqb_neq in Hall. congruence.
          - apply NoDup_singleton. }
        { apply Forall_app. split; [done|]. by constructor. }
        split; [done|]. split; [done|].
        rewrite length_app in H3. simpl in *. lia.
      * destruct (IH results Hnd Hne) as (H1 & H2 & H3).
        split; [done|]. split; [done|]. simpl. lia.
    + destruct (IH results Hnd Hne) as (H1 & H2 & H3).
      split; [done|]. split; [done|]. simpl. lia.
Qed.

(** X14. The pair extractor returns at most two names; each is
    non-empty and the two differ even when letter case is ignored.  For
    an absent or empty text it returns no name. *)
Theorem extracted_names_distinct (text : option string) :
  let names := _extract_players_from_text text in
  (length names <= 2)%nat
  /\ NoDup (map py_lower names)
  /\ Forall (fun n => nonempty n = true) names
  /\ (text = None \/ text = Some "" -> names = []).
Proof.
  cbv zeta. unfold _extract_players_from_text.
  assert (Hnil : (length (@nil string) <= 2)%nat /\ NoDup (map py_lower [])
                 /\ Forall (fun n => nonempty n = true) (@nil string)).
  { split; [simpl; lia|]. split; constructor. }
  destruct text as [s|].
  - destruct (negb (nonempty s)) eqn:Hs.
    + destruct Hnil as (?&?&?). by repeat split.
    + destruct (re_search VERSUS_RE s) as [m|].
      * destruct (extract_loop_invariant
                    [_clean_player_fragment (group 1 m) true;
                     _clean_player_fragment (group 2 m) false] [])
          as (H1 & H2 & H3); [constructor|constructor|].
        split; [exact H3|]. split; [exact H1|]. split; [exact H2|].
        intros [[=]|[= ->]]. discriminate Hs.
      * destruct Hnil as (?&?&?). repeat split; try done.
  - destruct Hnil as (?&?&?). by repeat split.
Qed.

(** The same surname on both sides gives one name. *)
Example extracted_same_name :
  _extract_players_from_text (Some "Sinner vs sinner nel 2024") = ["Sinner"].
Proof. vm_compute. reflexivity. Qed.

Lemma drop_while_fixed {A} (p : A -> bool) (l : list A) :
  (forall x, head l = Some x -> p x = false) -> drop_while p l = l.
Proof.
  destruct l as [|x l]; [done|]. intros Hx. simpl. by rewrite (Hx x eq_refl).
Qed.

Lemma drop_while_last {A} (p : A -> bool) (l : list A) x :
  last (drop_while p l) = Some x -> last l = Some x.
Proof.
  induction l as [|y l IH]; [done|]. simpl.
  destruct (p y); [|done].
  intros Hl. specialize (IH Hl). destruct l; [done|]. exact IH.
Qed.

Lemma head_rev {A} (l : list A) : head (rev l) = last l.
Proof. rewrite rev_alt. apply head_reverse. Qed.

Lemma last_rev {A} (l : list A) : last (rev l) = head l.
Proof. rewrite rev_alt. apply last_reverse. Qed.

(** Stripping twice is stripping once. *)
Lemma strip_by_idempotent (p : ascii -> bool) (s : string) :
  strip_by p (strip_by p s) = strip_by p s.
Proof.
  unfold strip_by. rewrite chars_str.
  set (a := drop_while p (chars s)).
  set (b := drop_while p (rev a)).
  assert (Hb : forall x, head b = Some x -> p x = false)
    by (intros x; apply drop_while_head).
  assert (Hrb : forall x, head (rev b) = Some x -> p x = false).
  { intros x. rewrite head_rev. intros Hl.
    apply drop_while_last in Hl. rewrite last_rev in Hl.
    by apply drop_while_head in Hl. }
  rewrite (drop_while_fixed p (rev b) Hrb), rev_involutive.
  by rewrite (drop_while_fixed p b Hb).
Qed.

Section aliases.

Let inv (st : list string * gset string) : Prop :=
  (forall k, k ∈ st.2 <-> k ∈ map py_lower st.1)
  /\ NoDup (map py_lower st.1)
  /\ Forall alias_ok st.1.

Lemma add_alias_invariant (alias : string) (st : list string * gset string) :
  inv st ->
  inv (add_alias alias st)
  /\ (length (add_alias alias st).1 <= S (length st.1))%nat.
Proof.
  intros (Hseen & Hnd & Hok). unfold add_alias.
  destruct (negb (nonempty alias)); [split; [done|lia]|].
  case_bool_decide as Hlen; [split; [done|lia]|].
  case_bool_decide as Hin; [split; [done|lia]|].
  cbn [fst snd]. split; [|rewrite length_app; simpl; lia].
  split; [|split].
  - intros k. cbn [fst snd]. rewrite map_app, elem_of_union, elem_of_app, Hseen.
    rewrite elem_of_singleton. cbn [map].
    split; (intros [Hk|Hk]; [right|left]); try done.
    + subst. left.
    + by inversion Hk as [|? ? ? Hk']; subst; [|inversion Hk'].
  - cbn [fst]. rewrite map_app. apply NoDup_app. split; [done|]. split.
    + intros x Hx Hk. inversion Hk as [|? ? ? Hk']; subst; [|inversion Hk'].
      apply Hin, Hseen, Hx.
    + apply NoDup_singleton.
  - cbn [fst]. apply Forall_app. split; [done|]. constructor; [|constructor].
    split; [lia|]. apply strip_by_idempotent.
Qed.

Lemma inv_init : inv ([], ∅).
Proof.
  split; [|split]; [|constructor|constructor].
  intros k. cbn. split; [by intros ?%elem_of_empty|by intros ?%elem_of_nil].
Qed.

(** X15. The aliases generated for a raw phrase are at most seven; each
    is trimmed and has two characters or more, and no two are equal when
    letter case is ignored. *)
Theorem candidate_aliases_distinct (raw_text : string) :
  let aliases := _candidate_aliases raw_text in
  (length aliases <= 7)%nat
  /\ NoDup (map py_lower aliases)
  /\ Forall alias_ok aliases.
Proof.
  cbv zeta. unfold _candidate_aliases.
  pose proof inv_init as H0.
  destruct (add_alias_invariant (py_strip raw_text) _ H0) as [H1 L1].
  set (st1 := add_alias (py_strip raw_text) ([], ∅)) in *.
  destruct (add_alias_invariant (_clean_player_fragment raw_text true) _ H1)
    as [H2 L2].
  set (st2 := add_alias (_clean_player_fragment raw_text true) st1) in *.
  destruct (add_alias_invariant (_clean_player_fragment raw_text false) _ H2)
    as [H3 L3].
  set (st3 := add_alias (_clean_player_fragment raw_text false) st2) in *.
  set (tokens := _tokenize raw_text).
  cbn [fst length] in L1.
  assert (Hfinal : forall st n, inv st -> (length st.1 <= n)%nat ->
            (length st.1 <= 7)%nat /\ NoDup (map py_lower st.1)
            /\ Forall alias_ok st.1 \/ (n > 7)%nat).
  { intros st n (_ & Hnd & Hok) Hle.
    destruct (decide (n <= 7)%nat); [left|right; lia].
    split; [lia|done]. }
  destruct (is_nil tokens).
  { destruct (Hfinal st3 3%nat H3) as [?|?]; [lia|done|lia]. }
  destruct (add_alias_invariant (py_join " " (drop (length tokens - 2) tokens)) _ H3)
    as [H4 L4].
  set (st4 := add_alias (py_join " " (drop (length tokens - 2) tokens)) st3) in *.
  destruct (add_alias_invariant (py_join " " (take 2 tokens)) _ H4) as [H5 L5].
  set (st5 := add_alias (py_join " " (take 2 tokens)) st4) in *.
  case_bool_decide.
  - destruct (add_alias_invariant (default "" (last tokens)) _ H5) as [H6 L6].
    set (st6 := add_alias (default "" (last tokens)) st5) in *.
    destruct (add_alias_invariant (default "" (head tokens)) _ H6) as [H7 L7].
    destruct (Hfinal _ 7%nat H7) as [?|?]; [lia|done|lia].
  - destruct (add_alias_invariant (default "" (last tokens)) _ H3) as [H6 L6].
    set (st6 := add_alias (default "" (last tokens)) st3) in *.
    destruct (add_alias_invariant (default "" (head tokens)) _ H6) as [H7 L7].
    destruct (Hfinal _ 5%nat H7) as [?|?]; [lia|done|lia].
Qed.

End aliases.

(** The aliases of a phrase with fillers and a trailing filter. *)
Example candidate_aliases_sample :
  _candidate_aliases "il match di Jannik Sinner a Roma"
  = [ "il match di Jannik Sinner a Roma"; "Roma"; "Jannik Sinner"; "a Roma";
      "Jannik" ].
Proof. vm_compute. reflexivity. Qed.

(** ** Statistics aggregator: counts and breakdowns *)

Lemma count_wins_bounds pid rows n :
  count_wins pid rows = Ok n -> (0 <= n <= Z.of_nat (length rows))%Z.
Proof.
  revert n. induction rows as [|mt rows IH]; intros n; simpl.
  - intros [= <-]. lia.
  - destruct (dict_item mt "winner_id") as [w|]; cbn [bind]; [|done].
    destruct (count_wins pid rows) as [m|]; cbn [bind]; [|done].
    specialize (IH m eq_refl).
    destruct (String.eqb (py_str w) pid); intros [= <-]; lia.
Qed.

Lemma percent_bounds (w t : Z) q :
  (0 <= w <= t)%Z -> guarded_percent w t t = Ok q -> (0 <= q /\ q <= 100)%Q.
Proof.
  intros Hw. unfold guarded_percent, percent, py_truediv.
  destruct (Z.eqb_spec t 0) as [->|Ht]; cbn [bind].
  - intros [= <-]. split; [apply Qle_refl|done].
  - intros [= <-].
    destruct t as [|t|t]; [done| |lia].
    unfold Qle, Qmult, Qdiv, Qinv, inject_Z; cbn.
    split; nia.
Qed.

(** X16. In the statistics of any match list the wins lie between 0 and
    the total, wins and losses add up to the total, the total is the
    number of rows, and the win rate lies between 0 and 100. *)
Theorem win_counts_consistent rows player_id year_filter st :
  aggregate rows player_id year_filter = Ok st ->
  total st = Z.of_nat (length rows)
  /\ (0 <= wins st <= total st)%Z
  /\ (wins st + losses st = total st)%Z
  /\ (0 <= win_rate st /\ win_rate st <= 100)%Q.
Proof.
  unfold aggregate.
  destruct (count_wins _ _) as [w|] eqn:Hw; cbn [bind]; [|done].
  apply count_wins_bounds in Hw.
  destruct (guarded_percent w _ _) as [q|] eqn:Hq; cbn [bind]; [|done].
  apply percent_bounds in Hq; [|done].
  repeat match goal with
         | |- bind ?m _ = _ -> _ => destruct m; cbn [bind]; [|discriminate]
         end.
  intros [= <-]. cbn. repeat split; try lia; tauto.
Qed.

Lemma win_counts_consistent_witness :
  exists st,
    aggregate sample_player_rows (PStr "105173") PNone = Ok st
    /\ total st = Z.of_nat (length sample_player_rows)
    /\ (0 <= wins st <= total st)%Z
    /\ (wins st + losses st = total st)%Z
    /\ (0 <= win_rate st /\ win_rate st <= 100)%Q.
Proof.
  eexists. split; [vm_compute; reflexivity|].
  apply (win_counts_consistent sample_player_rows (PStr "105173") PNone).
  vm_compute. reflexivity.
Defined.

(** What one pass of the loop does to the counters that the report
    prints as counts. *)
Lemma aggregate_step_counts pid yf a mt a' :
  aggregate_step pid yf a mt = Ok a' ->
  exists w sc tn,
    dict_item mt "winner_id" = Ok w
    /\ surface_stats a' = tally sc (String.eqb (py_str w) pid) (surface_stats a)
    /\ tournament_stats a' = tally tn (String.eqb (py_str w) pid) (tournament_stats a)
    /\ (retires_wins a' + retires_losses a' - retires_total a'
        = retires_wins a + retires_losses a - retires_total a
        /\ retires_total a <= retires_total a' <= retires_total a + 1
        /\ retires_wins a <= retires_wins a'
        /\ retires_losses a <= retires_losses a'
        /\ titles_won a <= titles_won a'
        /\ titles_won a' - titles_won a <= finals_played a' - finals_played a <= 1
        /\ tb_matches a <= tb_matches a' <= tb_matches a + 1
        /\ minutes_count a <= minutes_count a' <= minutes_count a + 1)%Z.
Proof.
  unfold aggregate_step.
  destruct (dict_item mt "winner_id") as [w|]; cbn [bind]; [|done].
  destruct (strip_method _) as [sc|]; cbn [bind]; [|done].
  destruct (strip_method _) as [tn|]; cbn [bind]; [|done].
  repeat match goal with
         | |- bind ?m _ = _ -> _ => destruct m; cbn [bind]; [|discriminate]
         end.
  intros [= <-].
  exists w, (if nonempty sc then sc else "N/A"), tn.
  cbn [surface_stats tournament_stats retires_wins retires_losses retires_total
       titles_won finals_played tb_matches minutes_count].
  split; [done|]. split; [done|]. split; [done|].
  repeat match goal with
         | |- context [andb ?x _] => destruct x; cbn [andb negb]
         end;
  repeat match goal with
         | |- context [if ?b then _ else _] => destruct b; cbn [andb negb]
         end; lia.
Qed.

Lemma tally_totals_tally key (is_winner : bool) (m : gmap string (Z * Z)) :
  tally_totals (tally key is_winner m)
  = ((tally_totals m).1 + 1, (tally_totals m).2 + (if is_winner then 1 else 0))%Z.
Proof.
  unfold tally, tally_totals.
  set (f := fun (_ : string) (e acc : Z * Z) => (e.1 + acc.1, e.2 + acc.2)%Z).
  assert (Hcomm : forall (j1 j2 : string) (z1 z2 y : Z * Z),
            f j1 z1 (f j2 z2 y) = f j2 z2 (f j1 z1 y)).
  { intros. unfold f. cbn. f_equal; lia. }
  destruct (m !! key) as [e|] eqn:Hk; cbn [default from_option id].
  - rewrite <- (insert_delete_eq m key) at 1.
    rewrite (map_fold_insert_L f); [|intros; apply Hcomm|apply lookup_delete_eq].
    rewrite (map_fold_delete_L f _ key e m); [|intros; apply Hcomm|done].
    unfold f. cbn. destruct is_winner; f_equal; lia.
  - rewrite (map_fold_insert_L f); [|intros; apply Hcomm|done].
    unfold f. cbn. destruct is_winner; f_equal; lia.
Qed.

Lemma aggregate_loop_counts pid yf rows a0 a :
  aggregate_loop pid yf rows a0 = Ok a ->
  exists w,
    count_wins pid rows = Ok w
    /\ tally_totals (surface_stats a)
       = ((tally_totals (surface_stats a0)).1 + Z.of_nat (length rows),
          (tally_totals (surface_stats a0)).2 + w)%Z
    /\ tally_totals (tournament_stats a)
       = ((tally_totals (tournament_stats a0)).1 + Z.of_nat (length rows),
          (tally_totals (tournament_stats a0)).2 + w)%Z
    /\ (retires_wins a + retires_losses a - retires_total a
        = retires_wins a0 + retires_losses a0 - retires_total a0
        /\ retires_total a0 <= retires_total a
           <= retires_total a0 + Z.of_nat (length rows)
        /\ retires_wins a0 <= retires_wins a
        /\ retires_losses a0 <= retires_losses a
        /\ titles_won a0 <= titles_won a
        /\ titles_won a - titles_won a0 <= finals_played a - finals_played a0
           <= Z.of_nat (length rows)
        /\ tb_matches a0 <= tb_matches a <= tb_matches a0 + Z.of_nat (length rows)
        /\ minutes_count a0 <= minutes_count a
           <= minutes_count a0 + Z.of_nat (length rows))%Z.
Proof.
  revert a0. induction rows as [|mt rows IH]; intros a0.
  - cbn [aggregate_loop count_wins length]. intros [= <-]. exists 0%Z.
    split; [done|]. rewrite !Z.add_0_r.
    split; [by destruct (tally_totals _)|].
    split; [by destruct (tally_totals _)|]. lia.
  - cbn [aggregate_loop].
    destruct (aggregate_step pid yf a0 mt) as [a1|] eqn:Hstep; cbn [bind]; [|done].
    intros Hloop.
    apply aggregate_step_counts in Hstep
      as (w1 & sc & tn & Hw1 & Hs1 & Ht1 & Hc1).
    destruct (IH a1 Hloop) as (w & Hw & Hs & Ht & Hc).
    cbn [count_wins]. rewrite Hw1, Hw. cbn [bind].
    eexists. split; [reflexivity|].
    rewrite Hs, Ht, Hs1, Ht1, !tally_totals_tally. cbn [fst snd length].
    split; [destruct (String.eqb (py_str w1) pid); f_equal; lia|].
    split; [destruct (String.eqb (py_str w1) pid); f_equal; lia|].
    lia.
Qed.

(** X17. The counts of the report are consistent: the retirements won
    and lost add up to the retirements, the titles are at most the finals
    played, and the retirements, finals, tie-break matches and matches
    with a duration are each at most the number of matches; none is
    negative. *)
Theorem report_counts_consistent rows player_id year_filter st :
  aggregate rows player_id year_filter = Ok st ->
  let a := sums st in
  (retires_wins a + retires_losses a = retires_total a
   /\ 0 <= retires_wins a /\ 0 <= retires_losses a
   /\ retires_total a <= total st
   /\ 0 <= titles_won a <= finals_played a
   /\ finals_played a <= total st
   /\ 0 <= tb_matches a <= total st
   /\ 0 <= minutes_count a <= total st)%Z.
Proof.
  unfold aggregate.
  destruct (count_wins _ _) as [w|]; cbn [bind]; [|done].
  destruct (guarded_percent w _ _) as [q|]; cbn [bind]; [|done].
  destruct (aggregate_loop _ _ _ _) as [a|] eqn:Hloop; cbn [bind]; [|done].
  apply aggregate_loop_counts in Hloop as (w' & _ & _ & _ & Hc).
  repeat match goal with
         | |- bind ?m _ = _ -> _ => destruct m; cbn [bind]; [|discriminate]
         end.
  intros [= <-]. cbn [sums total]. cbn in Hc. lia.
Qed.

Lemma report_counts_consistent_witness :
  exists st,
    aggregate sample_player_rows (PStr "105173") PNone = Ok st
    /\ let a := sums st in
       (retires_wins a + retires_losses a = retires_total a
        /\ 0 <= retires_wins a /\ 0 <= retires_losses a
        /\ retires_total a <= total st
        /\ 0 <= titles_won a <= finals_played a
        /\ finals_played a <= total st
        /\ 0 <= tb_matches a <= total st
        /\ 0 <= minutes_count a <= total st)%Z.
Proof.
  eexists. split; [vm_compute; reflexivity|].
  apply (report_counts_consistent sample_player_rows (PStr "105173") PNone).
  vm_compute. reflexivity.
Defined.

(** X18. The breakdowns add up: summed over the surfaces, and summed
    over the tournaments, the matches of the breakdown are the total and
    its wins are the wins of the player. *)
Theorem breakdowns_add_up rows player_id year_filter st :
  aggregate rows player_id year_filter = Ok st ->
  tally_totals (surface_stats (sums st)) = (total st, wins st)
  /\ tally_totals (tournament_stats (sums st)) = (total st, wins st).
Proof.
  unfold aggregate.
  destruct (count_wins _ _) as [w|] eqn:Hw; cbn [bind]; [|done].
  destruct (guarded_percent w _ _) as [q|]; cbn [bind]; [|done].
  destruct (aggregate_loop _ _ _ _) as [a|] eqn:Hloop; cbn [bind]; [|done].
  apply aggregate_loop_counts in Hloop as (w' & Hw' & Hs & Ht & _).
  rewrite Hw in Hw'. injection Hw' as <-.
  repeat match goal with
         | |- bind ?m _ = _ -> _ => destruct m; cbn [bind]; [|discriminate]
         end.
  intros [= <-]. cbn [sums total wins]. rewrite Hs, Ht.
  cbn [counters_init surface_stats tournament_stats].
  unfold tally_totals at 1 2 3 4. rewrite !map_fold_empty. cbn [fst snd].
  split; f_equal; lia.
Qed.

Lemma breakdowns_add_up_witness :
  exists st,
    aggregate sample_player_rows (PStr "105173") PNone = Ok st
    /\ tally_totals (surface_stats (sums st)) = (total st, wins st)
    /\ tally_totals (tournament_stats (sums st)) = (total st, wins st).
Proof.
  eexists. split; [vm_compute; reflexivity|].
  apply (breakdowns_add_up sample_player_rows (PStr "105173") PNone).
  vm_compute. reflexivity.
Defined.

(** ** Presentation helpers and routing *)

(** X19. Date formatting is idempotent on its argument type: formatting
    an already formatted date (or the "N/A" of an absent one, or a string
    that is not eight digits) returns it unchanged. *)
Theorem format_date_idempotent (d : option string) :
  format_tournament_date (PStr (format_tournament_date (date_arg d)))
  = format_tournament_date (date_arg d).
Proof.
  destruct d as [s|]; [|reflexivity]. cbn [date_arg from_option].
  assert (Hsame : forall r, r <> "" ->
            negb (Nat.eqb (String.length r) 8) || negb (py_isdigit r) = true ->
            format_tournament_date (PStr r) = r).
  { intros r Hr Hc. unfold format_tournament_date. cbn [truthy py_str].
    destruct (String.eqb_spec r "") as [|_]; [done|]. cbn [negb]. by rewrite Hc. }
  unfold format_tournament_date at 2 3. cbn [truthy py_str].
  destruct (String.eqb_spec s "") as [->|Hne]; [reflexivity|]. cbn [negb].
  destruct (negb (Nat.eqb (String.length s) 8) || negb (py_isdigit s)) eqn:Hc.
  - by apply Hsame.
  - apply orb_false_iff in Hc as [Hlen _].
    apply negb_false_iff, Nat.eqb_eq in Hlen.
    destruct s as [|c1 [|c2 [|c3 [|c4 [|c5 [|c6 [|c7 [|c8 [|]]]]]]]]];
      try discriminate Hlen.
    apply Hsame; [discriminate|reflexivity].
Qed.

Example format_date_samples :
  format_tournament_date (PStr "20251001") = "01/10/2025"
  /\ format_tournament_date (PStr "2025-10-01") = "2025-10-01"
  /\ format_tournament_date PNone = "N/A".
Proof. vm_compute. repeat split; reflexivity. Qed.

Lemma last_user_index_none events idx found :
  forallb (fun e => negb (is_user e)) events = true ->
  last_user_index events idx found = found.
Proof.
  revert idx found. induction events as [|e events IH]; intros idx found; [done|].
  cbn [forallb last_user_index]. intros [He Hall]%andb_true_iff.
  apply negb_true_iff in He. unfold is_user in He. rewrite He. by apply IH.
Qed.

Lemma last_user_index_split pre u post idx found :
  is_user u = true ->
  forallb (fun e => negb (is_user e)) post = true ->
  last_user_index (pre ++ u :: post) idx found = Some (idx + length pre)%nat.
Proof.
  intros Hu Hpost. revert idx found.
  induction pre as [|e pre IH]; intros idx found.
  - cbn [app last_user_index length]. unfold is_user in Hu. rewrite Hu.
    rewrite last_user_index_none by done. f_equal. lia.
  - cbn [app last_user_index length]. rewrite IH. f_equal. lia.
Qed.

Lemma drop_after_split {A} (pre : list A) (u : A) (post : list A) :
  drop (length pre + 1) (pre ++ u :: post) = post.
Proof. induction pre as [|e pre IH]; [done|]. exact IH. Qed.

(** A log has no user event, or splits at its last one. *)
Lemma log_split (events : list log_event) :
  forallb (fun e => negb (is_user e)) events = true
  \/ exists pre u post,
       events = pre ++ u :: post /\ is_user u = true
       /\ forallb (fun e => negb (is_user e)) post = true.
Proof.
  induction events as [|e events [IH|(pre & u & post & -> & Hu & Hpost)]].
  - by left.
  - destruct (is_user e) eqn:He.
    + right. exists [], e, events. by repeat split.
    + left. cbn. by rewrite He.
  - right. exists (e :: pre), u, post. by repeat split.
Qed.

(** X20. The action counts as run after the latest user message exactly
    when the log splits into a part, a user event and a rest without
    user events in which an action event carries the action's name; in
    particular never when the log has no user event. *)
Theorem action_ran_after_latest_user_iff (events : list log_event)
    (action_name : string) :
  action_ran_after_latest_user (Some events) action_name = true
  <-> exists pre u post,
        events = pre ++ u :: post /\ is_user u = true
        /\ forallb (fun e => negb (is_user e)) post = true
        /\ existsb (is_action_named action_name) post = true.
Proof.
  assert (Hat : forall pre u post,
            is_user u = true ->
            forallb (fun e => negb (is_user e)) post = true ->
            action_ran_after_latest_user (Some (pre ++ u :: post)) action_name
            = existsb (is_action_named action_name) post).
  { intros pre u post Hu Hpost. unfold action_ran_after_latest_user.
    destruct (pre ++ u :: post) as [|e0 l0] eqn:E; [by destruct pre|].
    rewrite <- E. rewrite last_user_index_split by done. cbn [Nat.add].
    rewrite length_app. cbn [length].
    rewrite drop_after_split.
    destruct (Nat.eqb_spec (length pre) (length pre + S (length post) - 1)) as [Hl|Hl].
    - destruct post; [done|]. simpl in Hl. lia.
    - reflexivity. }
  split.
  - intros Hrun. destruct (log_split events) as [Hnone|(pre & u & post & -> & Hu & Hpost)].
    + unfold action_ran_after_latest_user in Hrun.
      destruct events as [|e0 l0]; [done|].
      by rewrite last_user_index_none in Hrun.
    + exists pre, u, post. rewrite Hat in Hrun by done. by repeat split.
  - intros (pre & u & post & -> & Hu & Hpost & Hex). by rewrite Hat.
Qed.

Lemma last_relevant_loop_result (events : list log_event) (v : pyval) :
  last_relevant_loop events = Ok v ->
  v = PNone
  \/ exists name e,
       v = PStr name
       /\ In e events
       /\ eq_str (e_event e) "action" = true
       /\ py_or (e_name e) (PStr "") = PStr name
       /\ in_words IGNORED_ACTIONS name = false
       /\ starts_with "utter_" name = false.
Proof.
  induction events as [|e events IH]; cbn [last_relevant_loop].
  - intros [= <-]. by left.
  - destruct (eq_str (e_event e) "action") eqn:He; cbn [negb].
    + destruct (py_or (e_name e) (PStr "")) as [| |z|name] eqn:Hn; try done.
      destruct (in_words IGNORED_ACTIONS name || starts_with "utter_" name) eqn:Hi.
      * intros Hr. destruct (IH Hr) as [->|(n & e' & -> & Hin & H)]; [by left|].
        right. exists n, e'. split; [done|]. split; [by right|done].
      * apply orb_false_iff in Hi as [Hi1 Hi2]. intros [= <-].
        right. exists name, e. split; [done|]. split; [by left|done].
    + intros Hr. destruct (IH Hr) as [->|(n & e' & -> & Hin & H)]; [by left|].
      right. exists n, e'. split; [done|]. split; [by right|done].
Qed.

(** X21. The last relevant action, when there is one, is the name of
    an action event of the log that is neither one of the six ignored
    actions nor an utterance ("utter_..."). *)
Theorem last_relevant_action_is_relevant (events : list log_event) (v : pyval) :
  _get_last_relevant_action (Some events) = Ok v ->
  v = PNone
  \/ exists name e,
       v = PStr name
       /\ In e events
       /\ eq_str (e_event e) "action" = true
       /\ py_or (e_name e) (PStr "") = PStr name
       /\ in_words IGNORED_ACTIONS name = false
       /\ starts_with "utter_" name = false.
Proof.
  unfold _get_last_relevant_action. cbn [default from_option id].
  intros Hr. apply last_relevant_loop_result in Hr as [->|(n & e & -> & Hin & H)];
    [by left|].
  right. exists n, e. split; [done|]. split; [|done]. by apply in_rev.
Qed.

Lemma last_relevant_action_is_relevant_witness :
  let log := [ {| e_event := PStr "user"; e_name := PNone |};
               {| e_event := PStr "action"; e_name := PStr "action_player_stats" |};
               {| e_event := PStr "action"; e_name := PStr "utter_ask_player_name" |};
               {| e_event := PStr "action"; e_name := PStr "action_listen" |} ] in
  PStr "action_player_stats" = PNone
  \/ exists name e,
       PStr "action_player_stats" = PStr name
       /\ In e log
       /\ eq_str (e_event e) "action" = true
       /\ py_or (e_name e) (PStr "") = PStr name
       /\ in_words IGNORED_ACTIONS name = false
       /\ starts_with "utter_" name = false.
Proof.
  cbv zeta. apply last_relevant_action_is_relevant. vm_compute. reflexivity.
Defined.



Lemma guess_loop_issued (candidates : list string) (c : cursor) (tried : gset string) :
  let r := guess_loop c candidates tried in
  exists stmts,
    issued r.2 = issued c ++ stmts
    /\ (length stmts <= 3 * length candidates)%nat
    /\ backend r.2 = backend c.
Proof.
  cbv zeta. revert c tried.
  induction candidates as [|phrase candidates IH]; intros c tried.
  - exists []. cbn. by rewrite app_nil_r.
  - cbn [guess_loop]. case_bool_decide.
    + destruct (IH c tried) as (stmts & Hi & Hl & Hb).
      exists stmts. split; [done|]. split; [cbn [length]; lia|done].
    + destruct (find_best_tournament_issued c (Some phrase)) as (n & Hn & Hi & Hb).
      destruct (find_best_tournament c (Some phrase)) as [tournament c1].
      cbn [fst snd] in *.
      set (tiers := take n (tournament_tiers (py_strip (default "" (Some phrase))))) in *.
      assert (Hlen : (length tiers <= 3)%nat).
      { unfold tiers. rewrite length_take. lia. }
      destruct (truthy tournament).
      * exists tiers. cbn [fst snd length]. split; [done|]. split; [lia|done].
      * destruct (IH c1 ({[py_lower phrase]} ∪ tried)) as (stmts & Hi' & Hl & Hb').
        exists (tiers ++ stmts). rewrite Hi', Hi, Hb', Hb, <- app_assoc.
        split; [done|]. split; [|done]. rewrite length_app. cbn [length]. lia.
Qed.

Lemma filter_none {A} (p : A -> bool) (l : list A) :
  Forall (fun x => p x = false) l -> List.filter p l = [].
Proof. induction 1 as [|x l Hx _ IH]; simpl; [done|]. by rewrite Hx. Qed.

(** X23. Guessing a tournament from free text: when the text has no
    word of three letters or more, the answer is [None] and no statement
    is issued; in general at most three statements are issued for each
    candidate phrase, and the database behind the cursor is unchanged. *)
Theorem guess_tournament_statements (c : cursor) (text : string)
    (exclude : option (list string)) :
  let r := guess_tournament_from_text c text exclude in
  (Forall (fun tok => (String.length tok < 3)%nat)
          (runs_of is_name_char [] (chars text)) ->
   r = (PNone, c))
  /\ exists stmts,
       issued r.2 = issued c ++ stmts
       /\ (length stmts
           <= 3 * length (guess_candidates text (default [] exclude)))%nat
       /\ backend r.2 = backend c.
Proof.
  cbv zeta. unfold guess_tournament_from_text. split.
  - intros Hshort. destruct (negb (nonempty text)); [done|].
    unfold guess_candidates. rewrite (filter_none _ (runs_of _ _ _)); [done|].
    eapply Forall_impl; [exact Hshort|].
    intros tok Hlt. apply bool_decide_eq_false_2. cbn beta in Hlt. lia.
  - destruct (negb (nonempty text)).
    + exists []. cbn. rewrite app_nil_r. split; [done|]. split; [lia|done].
    + apply guess_loop_issued.
Qed.

(** "a vs b 12" has no word of three letters. *)
Example guess_tournament_short_words :
  guess_tournament_from_text overlapping_cursor "a vs b 12" None
  = (PNone, overlapping_cursor).
Proof. reflexivity. Qed.

(** A phrase that occurs twice, up to case, is looked up once. *)
Example guess_tournament_tried_once :
  let c := {| backend := fun _ _ => ([], []); issued := []; description := [];
              pending := [] |} in
  map (fun qp => qp.2) (issued (guess_tournament_from_text c "Roma roma" None).2)
  = [ [PStr "Roma roma"]; [PStr "%Roma roma%"]; [PStr "%Roma%roma%"];
      [PStr "Roma"]; [PStr "%Roma%"]; [PStr "%Roma%"] ].
Proof. vm_compute. reflexivity. Qed.

Lemma get_player_name_issued (player_id : pyval) (c : cursor) :
  let r := get_player_name_by_id player_id c in
  issued r.2 = issued c ++ name_lookup player_id
  /\ backend r.2 = backend c
  /\ (truthy player_id = false -> r.1 = PStr "Unknown")
  /\ (truthy player_id = true -> head (backend c PLAYER_NAME_SQL [player_id]).2 = None ->
      r.1 = player_id).
Proof.
  cbv zeta. unfold get_player_name_by_id, name_lookup.
  destruct (truthy player_id); cbn [negb].
  - destruct (tier_step PLAYER_NAME_SQL [player_id] c) as (Hr & Hi & Hb).
    destruct (fetchone _) as [r c1]. cbn [fst snd] in *.
    destruct r as [[|name r]|]; cbn [row_truthy fst snd];
      (split; [done|]); (split; [done|]); (split; [done|]);
      intros _ Hnone; rewrite Hnone in Hr; congruence.
  - rewrite app_nil_r. by repeat split.
Qed.

(** X24. Display information of a raw match row.  A row that is absent
    or has fewer than 34 cells gives an empty result, and a row of more
    than 34 cells raises ValueError; neither touches the database.  A row
    of exactly 34 cells gives a result, after the name lookups of the
    winner and then the loser, one statement for each id that is truthy. *)
Theorem display_info_by_row_length (r : list pyval) (c : cursor) :
  get_match_display_info None c = (Ok ∅, c)
  /\ ((length r < 34)%nat -> get_match_display_info (Some r) c = (Ok ∅, c))
  /\ ((34 < length r)%nat ->
      get_match_display_info (Some r) c = (Raise ValueError, c))
  /\ (length r = 34%nat ->
      let info := get_match_display_info (Some r) c in
      is_ok info.1
      /\ issued info.2
         = issued c ++ name_lookup (default PNone (r !! 7%nat))
                    ++ name_lookup (default PNone (r !! 8%nat))
      /\ backend info.2 = backend c).
Proof.
  split; [done|]. unfold get_match_display_info. split; [|split].
  - intros Hl. rewrite (bool_decide_eq_true_2 _ Hl). by rewrite orb_true_r.
  - intros Hl. destruct r as [|x r]; [simpl in Hl; lia|]. cbn [is_nil orb].
    rewrite bool_decide_eq_false_2 by lia. by rewrite bool_decide_eq_true_2.
  - intros Hl. cbv zeta.
    destruct r as [|x r]; [done|]. cbn [is_nil orb].
    rewrite !bool_decide_eq_false_2 by lia.
    set (w := default PNone ((x :: r) !! 7%nat)).
    set (l := default PNone ((x :: r) !! 8%nat)).
    destruct (get_player_name_issued w c) as (Hi1 & Hb1 & _).
    destruct (get_player_name_by_id w c) as [wn c1]. cbn [fst snd] in *.
    destruct (get_player_name_issued l c1) as (Hi2 & Hb2 & _).
    destruct (get_player_name_by_id l c1) as [ln c2]. cbn [fst snd] in *.
    split; [by eexists|]. rewrite Hi2, Hi1, Hb2, Hb1, <- app_assoc. done.
Qed.

(** The sample row: two lookups, the names fall back to the ids. *)
Example display_info_sample :
  let c := {| backend := fun _ _ => ([], []); issued := []; description := [];
              pending := [] |} in
  let info := get_match_display_info (Some (sample_match 1201 "105173" "100644")) c in
  res_map (fun d : gmap string pyval =>
             (d !! "winner", d !! "year", d !! "date", d !! "ongoing")) info.1
  = Ok (Some (PStr "105173"), Some (PStr "2025"), Some (PStr "01/10/2025"),
        Some (PBool false))
  /\ issued info.2 = [ (PLAYER_NAME_SQL, [PStr "105173"]);
                       (PLAYER_NAME_SQL, [PStr "100644"]) ].
Proof. vm_compute. split; reflexivity. Qed.

(** X25. When no match satisfies the filters, the statistics action
    clears every filter slot that the memory holds or the message gave:
    the events keep the player, contain a clearing event for each such
    slot, and set no filter slot to a value. *)
Theorem zero_result_clears_filters (t : tracker) (canonical_name : pyval) :
  let c := build_filter_context t in
  let evs := stats_zero_result_events c canonical_name in
  (truthy (get_slot t "year") = true \/ message_year c <> PNone ->
   In (SlotSet "year" PNone) evs)
  /\ (truthy (get_slot t "surface") = true \/ message_surface c <> PNone ->
      In (SlotSet "surface" PNone) evs)
  /\ (truthy (get_slot t "tournament_name") = true \/ message_tournament c <> PNone ->
      In (SlotSet "tournament_name" PNone) evs)
  /\ In (SlotSet "player_name" canonical_name) evs
  /\ Forall clears_or_keeps_player evs.
Proof.
  cbv zeta. unfold stats_zero_result_events.
  assert (Hexp : forall v, v <> PNone -> is_not_none v = true) by (by intros []).
  unfold build_filter_context.
  cbn [explicit_year explicit_surface explicit_tournament year surface tournament
       slot_year slot_surface slot_tournament message_year message_surface
       message_tournament].
  set (my := match entity_values "year" _ with _ :: _ => _ | [] => _ end).
  set (ms := match entity_values "surface" _ with _ :: _ => _ | [] => _ end).
  set (mt := match entity_values "tournament" _ with _ :: _ => _ | [] => _ end).
  assert (Hflag : forall (m sl : pyval) (x : bool),
            truthy sl = true \/ m <> PNone ->
            is_not_none m || x || truthy sl = true).
  { intros m sl x [Hsl|Hm]; [by rewrite Hsl, orb_true_r|].
    by rewrite (Hexp m Hm). }
  destruct (eq_str _ "inform_filters"); repeat split.
  1,6: intros H; rewrite (Hflag my _ _ H); cbn; tauto.
  1,5: intros H; rewrite (Hflag ms _ _ H);
       apply in_app_iff; right; apply in_app_iff; right; apply in_app_iff; left;
       by left.
  1,4: intros H; rewrite (Hflag mt _ _ H);
       do 3 (apply in_app_iff; right); apply in_app_iff; left; by left.
  1,3: by left.
  all: repeat match goal with
              | |- context [if ?b then [_] else []] => destruct b
              end; cbn [app];
       repeat (apply List.Forall_cons; [cbn; tauto|]); apply List.Forall_nil.
Qed.

(** X26. Rows fetched as dicts are read by position: when the column
    names of the result are distinct, there is one dict per fetched row,
    in order; a column read by name is the cell at the column's position
    ([None] when the row is too short); and the raw tuple is attached
    exactly when asked for. *)
Theorem fetched_rows_read_by_position (c : cursor) (query : string)
    (params : list pyval) (include_raw : bool) :
  NoDup (backend c query params).1 ->
  let rows := (fetch_rows_as_dicts c query params include_raw).1 in
  length rows = length (backend c query params).2
  /\ forall j d t,
       rows !! j = Some d -> (backend c query params).2 !! j = Some t ->
       raw d = (if include_raw then Some t else None)
       /\ forall i k, (backend c query params).1 !! i = Some k ->
                      dict_get (fields d) k = default PNone (t !! i).
Proof.
  intros Hnd. cbv zeta. unfold fetch_rows_as_dicts, fetchall, execute.
  destruct (backend c query params) as [cols raws]. cbn [fst snd] in *.
  cbn [description pending fst].
  split; [by rewrite length_map|].
  intros j d t Hd Ht.
  change (map ?f raws) with (f <$> raws) in Hd.
  rewrite list_lookup_fmap, Ht in Hd. injection Hd as <-. cbn [raw fields].
  split; [done|]. intros i k Hk. by apply dict_zip_get.
Qed.

Lemma fetched_rows_read_by_position_witness :
  let rows := (fetch_rows_as_dicts overlapping_cursor PAIR_SQL [] true).1 in
  length rows = length (backend overlapping_cursor PAIR_SQL []).2
  /\ forall j d t,
       rows !! j = Some d -> (backend overlapping_cursor PAIR_SQL []).2 !! j = Some t ->
       raw d = Some t
       /\ forall i k, (backend overlapping_cursor PAIR_SQL []).1 !! i = Some k ->
                      dict_get (fields d) k = default PNone (t !! i).
Proof.
  apply (fetched_rows_read_by_position overlapping_cursor PAIR_SQL [] true).
  apply MATCHES_COLUMNS_NoDup.
Defined.
